(** * The machine reservation workflow of [src/handler/api.ts]

    A shallow embedding of the [ApiHandler] class: its three private
    handlers ([handleRequestMachine], [handleGetMachine],
    [handleStartMachine]), [checkToken] and the router [handle].

    The handler talks to four collaborators (the machine table, the data
    cache, the identity provider and the smart-machine client).  Their
    classes are not part of the sources at hand, so the handler is first
    written against their interfaces, every call being recorded in a
    trace; an in-memory implementation of the four interfaces follows. *)

From Stdlib Require Import String Ascii List Arith.
From stdpp Require Import base option list strings gmap.

Open Scope string_scope.
Open Scope list_scope.

(** ** database/schema *)

Module Schema.

(** Modelled from the spec: the enum of [database/schema] is not among
    the sources.  The four statuses the handler names, and [OTHER] for
    the further statuses the table may hold. *)
Inductive MachineStatus : Type :=
| AVAILABLE
| AWAITING_DROPOFF
| RUNNING
| ERROR
| OTHER (label : string).

(** Modelled from the spec: the document of [database/schema]; the
    handler itself reads [machineId] and [status] only. *)
Record MachineStateDocument : Type := mkMachine {
  machineId : string;
  locationId : string;
  status : MachineStatus;
  jobId : option string
}.

Definition withStatus (s : MachineStatus) (m : MachineStateDocument) :=
  {| machineId := machineId m; locationId := locationId m;
     status := s; jobId := jobId m |}.

Definition withJobId (j : string) (m : MachineStateDocument) :=
  {| machineId := machineId m; locationId := locationId m;
     status := status m; jobId := Some j |}.

End Schema.
Export Schema.

#[global] Instance MachineStatus_eq_dec : EqDecision MachineStatus.
Proof. solve_decision. Defined.

#[global] Instance MachineStateDocument_eq_dec : EqDecision MachineStateDocument.
Proof. solve_decision. Defined.

(** ** handler/model *)

Module Model.

(** Modelled from the spec: the response codes of [handler/model]. *)
Inductive HttpResponseCode : Type :=
| OK
| BAD_REQUEST
| UNAUTHORIZED
| NOT_FOUND
| INTERNAL_SERVER_ERROR
| HARDWARE_ERROR.

Record MachineResponseModel : Type := mkResponse {
  statusCode : HttpResponseCode;
  machine : option MachineStateDocument
}.

(** The structured request the transport layer hands to [handle];
    [locationId] and [jobId] are the body-derived fields that
    [handleRequestMachine] reads after the cast. *)
Record RequestModel : Type := mkRequest {
  method : string;
  path : string;
  token : string;
  locationId : string;
  jobId : string
}.

Definition RequestMachineRequestModel : Type := RequestModel.

(** [{ ...request, machineId }] *)
Record GetMachineRequestModel : Type := mkWithMachineId {
  request : RequestModel;
  machineId : string
}.

Definition StartMachineRequestModel : Type := GetMachineRequestModel.

End Model.
Export Model (HttpResponseCode(..), MachineResponseModel(..), statusCode, machine,
              RequestModel, RequestMachineRequestModel,
              GetMachineRequestModel, StartMachineRequestModel).

#[global] Instance HttpResponseCode_eq_dec : EqDecision HttpResponseCode.
Proof. solve_decision. Defined.

(** ** Calls, replies and exceptions *)

(** What a [throw] carries: the [Error] built by [checkToken] (its message
    is the JSON of a status code and a text), or whatever a collaborator
    raised. *)
Inductive Thrown : Type :=
| CollaboratorFault
| ErrorJSON (statusCode : HttpResponseCode) (message : string).

(** A computation over a state [S] either returns or throws; both leave a
    state behind (an exception does not undo what was done before it). *)
Inductive Outcome (S A : Type) : Type :=
| Returned (a : A) (s : S)
| Threw (e : Thrown) (s : S).
Arguments Returned {S A} a s.
Arguments Threw {S A} e s.

(** One entry per method of a collaborator. *)
Inductive Call : Type :=
| ValidateToken (token : string)
| ListMachinesAtLocation (locationId : string)
| GetMachine (machineId : string)
| UpdateMachineStatus (machineId : string) (status : MachineStatus)
| UpdateMachineJobId (machineId : string) (jobId : string)
| CacheGet (machineId : string)
| CachePut (machineId : string) (doc : MachineStateDocument)
| StartCycle (machineId : string).

Inductive Reply : Type :=
| Raised
| Void
| Flag (b : bool)
| Listing (docs : list MachineStateDocument)
| Found (doc : option MachineStateDocument).

Definition Event : Type := Call * Reply.

(** ** The collaborators' interfaces

    [W] is the world outside the handler: whatever the table, the cache,
    the identity provider and the devices keep.  A method takes the world
    and returns or throws, leaving a new world. *)

Record DataCache (W : Type) : Type := {
  get : string → W → Outcome W (option MachineStateDocument);
  put : string → MachineStateDocument → W → Outcome W unit
}.
Arguments get {W}.
Arguments put {W}.

Record MachineStateTable (W : Type) : Type := {
  listMachinesAtLocation : string → W → Outcome W (list MachineStateDocument);
  getMachine : string → W → Outcome W (option MachineStateDocument);
  updateMachineStatus : string → MachineStatus → W → Outcome W unit;
  updateMachineJobId : string → string → W → Outcome W unit
}.
Arguments listMachinesAtLocation {W}.
Arguments getMachine {W}.
Arguments updateMachineStatus {W}.
Arguments updateMachineJobId {W}.

Record IdentityProviderClient (W : Type) : Type := {
  validateToken : string → W → Outcome W bool
}.
Arguments validateToken {W}.

Record SmartMachineClient (W : Type) : Type := {
  startCycle : string → W → Outcome W unit
}.
Arguments startCycle {W}.

(** The private fields of the class. *)
Record ApiHandler (W : Type) : Type := {
  cache : DataCache W;
  db : MachineStateTable W;
  idp : IdentityProviderClient W;
  smartMachine : SmartMachineClient W
}.
Arguments cache {W}.
Arguments db {W}.
Arguments idp {W}.
Arguments smartMachine {W}.

(** What a run of the handler threads along: the world and the calls made
    so far, oldest first, each with its reply. *)
Record Session (W : Type) : Type := mkSession {
  world : W;
  trace : list Event
}.
Arguments mkSession {W}.
Arguments world {W}.
Arguments trace {W}.

(** ** Path patterns of the router *)

(** [[a-zA-Z0-9-]] *)
Definition isIdChar (c : ascii) : bool :=
  let n := nat_of_ascii c in
  (((97 <=? n) && (n <=? 122)) || ((65 <=? n) && (n <=? 90))
   || ((48 <=? n) && (n <=? 57)) || (n =? 45))%nat.

Fixpoint stripPrefix (p s : string) : option string :=
  match p, s with
  | EmptyString, _ => Some s
  | String a p', String b s' => if Ascii.eqb a b then stripPrefix p' s' else None
  | String _ _, EmptyString => None
  end.

(** The longest run of id characters at the head of [s], and what follows. *)
Fixpoint spanId (s : string) : string * string :=
  match s with
  | EmptyString => (EmptyString, EmptyString)
  | String c s' =>
      if isIdChar c then let (i, r) := spanId s' in (String c i, r)
      else (EmptyString, s)
  end.

(** [path.match(/^\/machine\/([a-zA-Z0-9-]+)<suffix>$/)], returning the
    captured group.  No id character starts [suffix] ("" or "/start"), so
    the greedy group is the longest run of id characters. *)
Definition matchMachinePath (suffix path : string) : option string :=
  match stripPrefix "/machine/" path with
  | None => None
  | Some rest =>
      let (id, tail) := spanId rest in
      if negb (String.eqb id "") && String.eqb tail suffix then Some id else None
  end.

(** ** The handler *)

Section Handler.

Context {W : Type}.
Variable this : ApiHandler W.

(** The handler's monad: state (world and trace) and exceptions. *)
Definition M (A : Type) : Type := Session W → Outcome (Session W) A.

#[export] Instance M_ret : MRet M := λ A a s, Returned a s.

#[export] Instance M_bind : MBind M := λ A B k m s,
  match m s with
  | Returned a s' => k a s'
  | Threw e s' => Threw e s'
  end.

Definition throw {A} (e : Thrown) : M A := λ s, Threw e s.

(** [try { body } catch (error) { handler }] *)
Definition try_catch {A} (body : M A) (handler : Thrown → M A) : M A := λ s,
  match body s with
  | Returned a s' => Returned a s'
  | Threw e s' => handler e s'
  end.

(** A call of a collaborator's method, appended to the trace with its
    reply. *)
Definition invoke {A} (c : Call) (reply : A → Reply)
    (method : W → Outcome W A) : M A := λ s,
  match method (world s) with
  | Returned a w => Returned a (mkSession w (trace s ++ [(c, reply a)]))
  | Threw e w => Threw e (mkSession w (trace s ++ [(c, Raised)]))
  end.

Definition idp_validateToken (token : string) : M bool :=
  invoke (ValidateToken token) Flag (this.(idp).(validateToken) token).
Definition db_listMachinesAtLocation (l : string) : M (list MachineStateDocument) :=
  invoke (ListMachinesAtLocation l) Listing (this.(db).(listMachinesAtLocation) l).
Definition db_getMachine (id : string) : M (option MachineStateDocument) :=
  invoke (GetMachine id) Found (this.(db).(getMachine) id).
Definition db_updateMachineStatus (id : string) (st : MachineStatus) : M unit :=
  invoke (UpdateMachineStatus id st) (λ _, Void) (this.(db).(updateMachineStatus) id st).
Definition db_updateMachineJobId (id job : string) : M unit :=
  invoke (UpdateMachineJobId id job) (λ _, Void) (this.(db).(updateMachineJobId) id job).
Definition cache_get (id : string) : M (option MachineStateDocument) :=
  invoke (CacheGet id) Found (this.(cache).(get) id).
Definition cache_put (id : string) (doc : MachineStateDocument) : M unit :=
  invoke (CachePut id doc) (λ _, Void) (this.(cache).(put) id doc).
Definition smartMachine_startCycle (id : string) : M unit :=
  invoke (StartCycle id) (λ _, Void) (this.(smartMachine).(startCycle) id).

Definition checkToken (token : string) : M unit :=
  valid ← idp_validateToken token;
  if negb valid then throw (ErrorJSON UNAUTHORIZED "Invalid token")
  else mret tt.

Definition handleRequestMachine (request : RequestMachineRequestModel)
    : M MachineResponseModel :=
  try_catch (
    machines ← db_listMachinesAtLocation (Model.locationId request);
    let availableMachine :=
      find (λ m, bool_decide (status m = AVAILABLE)) machines in
    match availableMachine with
    | None => mret {| statusCode := NOT_FOUND; machine := None |}
    | Some availableMachine =>
        db_updateMachineStatus (machineId availableMachine) AWAITING_DROPOFF;;
        db_updateMachineJobId (machineId availableMachine) (Model.jobId request);;
        updatedMachine ← db_getMachine (machineId availableMachine);
        match updatedMachine with
        | Some updatedMachine =>
            cache_put (machineId availableMachine) updatedMachine;;
            mret {| statusCode := OK; machine := Some updatedMachine |}
        | None =>
            mret {| statusCode := INTERNAL_SERVER_ERROR; machine := None |}
        end
    end)
  (λ error, mret {| statusCode := INTERNAL_SERVER_ERROR; machine := None |}).

Definition handleGetMachine (request : GetMachineRequestModel)
    : M MachineResponseModel :=
  try_catch (
    cachedMachine ← cache_get (Model.machineId request);
    match cachedMachine with
    | Some cachedMachine =>
        mret {| statusCode := OK; machine := Some cachedMachine |}
    | None =>
        machine ← db_getMachine (Model.machineId request);
        match machine with
        | None => mret {| statusCode := NOT_FOUND; machine := None |}
        | Some machine =>
            cache_put (Model.machineId request) machine;;
            mret {| statusCode := OK; machine := Some machine |}
        end
    end)
  (λ error, mret {| statusCode := INTERNAL_SERVER_ERROR; machine := None |}).

Definition handleStartMachine (request : StartMachineRequestModel)
    : M MachineResponseModel :=
  try_catch (
    machine ← db_getMachine (Model.machineId request);
    match machine with
    | None => mret {| statusCode := NOT_FOUND; machine := None |}
    | Some machine =>
        if negb (bool_decide (status machine = AWAITING_DROPOFF)) then
          mret {| statusCode := BAD_REQUEST; machine := Some machine |}
        else
          smartMachine_startCycle (Model.machineId request);;
          db_updateMachineStatus (Model.machineId request) RUNNING;;
          updatedMachine ← db_getMachine (Model.machineId request);
          match updatedMachine with
          | Some updatedMachine =>
              cache_put (Model.machineId request) updatedMachine;;
              mret {| statusCode := OK; machine := Some updatedMachine |}
          | None =>
              mret {| statusCode := INTERNAL_SERVER_ERROR; machine := None |}
          end
    end)
  (λ error,
    (* the inner [try] either returns HARDWARE_ERROR or falls through, as
       its [catch] does, to the [return] that ends the outer [catch] *)
    try_catch (
      machine ← db_getMachine (Model.machineId request);
      match machine with
      | Some machine =>
          if bool_decide (status machine = ERROR) then
            db_updateMachineStatus (Model.machineId request) ERROR;;
            cache_put (Model.machineId request) machine;;
            mret {| statusCode := HARDWARE_ERROR; machine := Some machine |}
          else
            mret {| statusCode := INTERNAL_SERVER_ERROR; machine := None |}
      | None =>
          mret {| statusCode := INTERNAL_SERVER_ERROR; machine := None |}
      end)
    (λ innerError,
      mret {| statusCode := INTERNAL_SERVER_ERROR; machine := None |})).

Definition handle (request : RequestModel) : M MachineResponseModel :=
  checkToken (Model.token request);;
  if String.eqb (Model.method request) "POST"
     && String.eqb (Model.path request) "/machine/request"
  then handleRequestMachine request
  else
    let getMachineMatch := matchMachinePath "" (Model.path request) in
    match String.eqb (Model.method request) "GET", getMachineMatch with
    | true, Some machineId =>
        handleGetMachine (Model.mkWithMachineId request machineId)
    | _, _ =>
        let startMachineMatch := matchMachinePath "/start" (Model.path request) in
        match String.eqb (Model.method request) "POST", startMachineMatch with
        | true, Some machineId =>
            handleStartMachine (Model.mkWithMachineId request machineId)
        | _, _ =>
            mret {| statusCode := INTERNAL_SERVER_ERROR; machine := None |}
        end
    end.

End Handler.

Arguments M W A : clear implicits.

(** ** The collaborators in memory *)

Module Memory.

(** What the device does with the next start command. *)
Inductive DeviceTurn : Type :=
| Starts        (* the cycle starts *)
| Refuses       (* the command fails, the machine is as it was *)
| BreaksDown.   (* the command fails and the machine is reported in ERROR *)

(** Modelled from the spec: the four collaborators, whose classes are not
    among the sources.  The table is a map keyed by machine id that keeps
    its rows in insertion order; the cache is [put(id, record)] /
    [get(id)] with whole-record replacement and no eviction, and what it
    holds is a copy of the record put, not a reference to the row of the
    table (spec, section 3: the cache holds a copy, not a reference, possibly
    stale relative to the store until refreshed), so that a later write to
    the table leaves the entries as they are; the identity provider knows
    the valid tokens.  Two scripts stand for what the
    handler cannot control: [outages] says for each coming call of the
    table whether it raises ([true]) or is served, and [devices] what the
    device does with each coming start command.  An empty script means
    that all goes well. *)
Record World : Type := mkWorld {
  rows : list MachineStateDocument;
  entries : gmap string MachineStateDocument;
  tokens : list string;
  outages : list bool;
  devices : list DeviceTurn
}.

(** The row stored under a machine id. *)
Definition row (id : string) (t : list MachineStateDocument)
    : option MachineStateDocument :=
  find (λ m, String.eqb (machineId m) id) t.

(** A field update of the row stored under [id]; no such row, no change. *)
Fixpoint alterRow (id : string) (f : MachineStateDocument → MachineStateDocument)
    (t : list MachineStateDocument) : list MachineStateDocument :=
  match t with
  | [] => []
  | m :: t' =>
      if String.eqb (machineId m) id then f m :: t' else m :: alterRow id f t'
  end.

Definition atLocation (l : string) (t : list MachineStateDocument)
    : list MachineStateDocument :=
  List.filter (λ m, String.eqb (Schema.locationId m) l) t.

(** Is an outage due at the coming call of the table? *)
Definition outageDue (w : World) : bool :=
  match outages w with
  | true :: _ => true
  | _ => false
  end.

(** The world after a call of the table that was served, leaving the
    rows [after]; and after one that raised. *)
Definition served (after : list MachineStateDocument → list MachineStateDocument)
    (w : World) : World :=
  mkWorld (after (rows w)) (entries w) (tokens w) (tail (outages w)) (devices w).

Definition failed (w : World) : World :=
  mkWorld (rows w) (entries w) (tokens w) (tail (outages w)) (devices w).

(** A call of the table: it raises when an outage is due, and otherwise
    answers [answer] and leaves the rows [after]. *)
Definition tableCall {A} (answer : list MachineStateDocument → A)
    (after : list MachineStateDocument → list MachineStateDocument)
    (w : World) : Outcome World A :=
  if outageDue w then Threw CollaboratorFault (failed w)
  else Returned (answer (rows w)) (served after w).

Definition table : MachineStateTable World := {|
  listMachinesAtLocation l := tableCall (atLocation l) id;
  getMachine i := tableCall (row i) id;
  updateMachineStatus i s := tableCall (λ _, tt) (alterRow i (withStatus s));
  updateMachineJobId i j := tableCall (λ _, tt) (alterRow i (withJobId j))
|}.

Definition dataCache : DataCache World := {|
  get i w := Returned (entries w !! i) w;
  put i doc w :=
    Returned tt (mkWorld (rows w) (<[i := doc]> (entries w)) (tokens w)
                         (outages w) (devices w))
|}.

Definition identityProvider : IdentityProviderClient World := {|
  validateToken t w := Returned (existsb (String.eqb t) (tokens w)) w
|}.

(** What the device does with the coming start command. *)
Definition deviceTurn (w : World) : DeviceTurn :=
  match devices w with
  | [] => Starts
  | turn :: _ => turn
  end.

Definition smartMachineClient : SmartMachineClient World := {|
  startCycle i w :=
    match deviceTurn w with
    | Starts =>
        Returned tt
          (mkWorld (rows w) (entries w) (tokens w) (outages w)
                   (tail (devices w)))
    | Refuses =>
        Threw CollaboratorFault
          (mkWorld (rows w) (entries w) (tokens w) (outages w)
                   (tail (devices w)))
    | BreaksDown =>
        Threw CollaboratorFault
          (mkWorld (alterRow i (withStatus ERROR) (rows w)) (entries w)
                   (tokens w) (outages w) (tail (devices w)))
    end
|}.

Definition apiHandler : ApiHandler World := {|
  cache := dataCache;
  db := table;
  idp := identityProvider;
  smartMachine := smartMachineClient
|}.

(** A session that starts in [w] with no call made yet. *)
Definition fresh (w : World) : Session World := mkSession w [].

(** No outage of the table is due. *)
Definition tableUp (w : World) : Prop := Forall (λ b, b = false) (outages w).

(** Machine ids are keys: no two rows share one. *)
Definition keyed (t : list MachineStateDocument) : Prop :=
  NoDup (map machineId t).


End Memory.

(** ** Reading a trace *)

Definition isStartCycle (ev : Event) : bool :=
  match ev.1 with StartCycle _ => true | _ => false end.


(** The calls recorded in [s] after those of [s0]. *)
Definition since {W} (s0 s : Session W) : list Event :=
  drop (length (trace s0)) (trace s).

(** The most recent record of machine [id] that the handler has read from
    the table or written to it, going through a trace: a read returns the
    record; a listing returns it among others; a served field update
    writes the field into the record last seen. *)
Definition observe (id : string) (seen : option MachineStateDocument)
    (ev : Event) : option MachineStateDocument :=
  match ev with
  | (GetMachine i, Found (Some m)) => if String.eqb i id then Some m else seen
  | (ListMachinesAtLocation _, Listing ms) =>
      match find (λ m, String.eqb (machineId m) id) ms with
      | Some m => Some m
      | None => seen
      end
  | (UpdateMachineStatus i st, Void) =>
      if String.eqb i id then withStatus st <$> seen else seen
  | (UpdateMachineJobId i j, Void) =>
      if String.eqb i id then withJobId j <$> seen else seen
  | _ => seen
  end.

Definition lastObserved (id : string) (tr : list Event)
    : option MachineStateDocument :=
  fold_left (observe id) tr None.

(** ** The three operations of the workflow *)

Module Operation.
Inductive t : Type :=
| RequestMachine (request : RequestMachineRequestModel)
| GetMachine (request : GetMachineRequestModel)
| StartMachine (request : StartMachineRequestModel).
End Operation.

Definition perform {W} (this : ApiHandler W) (op : Operation.t)
    : M W MachineResponseModel :=
  match op with
  | Operation.RequestMachine request => handleRequestMachine this request
  | Operation.GetMachine request => handleGetMachine this request
  | Operation.StartMachine request => handleStartMachine this request
  end.

(** ** The status machine *)



(** What a run that returns leaves behind; a run that throws satisfies
    nothing. *)
Definition returns {S A} (out : Outcome S A) (post : A → S → Prop) : Prop :=
  match out with
  | Returned a s => post a s
  | Threw _ _ => False
  end.

(** ** The collaborators as test doubles *)

Module Mock.

(** A test double of the four collaborators: the world is the script of
    the replies still to give; a method takes the next one, and raises
    when the script is over or says so. *)
Definition World : Type := list Reply.

Definition next {A} (read : Reply → option A) (w : World) : Outcome World A :=
  match w with
  | [] => Threw CollaboratorFault []
  | r :: later =>
      match read r with
      | Some a => Returned a later
      | None => Threw CollaboratorFault later
      end
  end.

Definition void (r : Reply) : option unit :=
  match r with Void => Some tt | _ => None end.
Definition flag (r : Reply) : option bool :=
  match r with Flag b => Some b | _ => None end.
Definition listing (r : Reply) : option (list MachineStateDocument) :=
  match r with Listing ms => Some ms | _ => None end.
Definition found (r : Reply) : option (option MachineStateDocument) :=
  match r with Found o => Some o | _ => None end.

Definition apiHandler : ApiHandler World := {|
  cache := {| get _ := next found; put _ _ := next void |};
  db := {| listMachinesAtLocation _ := next listing;
           getMachine _ := next found;
           updateMachineStatus _ _ := next void;
           updateMachineJobId _ _ := next void |};
  idp := {| validateToken _ := next flag |};
  smartMachine := {| startCycle _ := next void |}
|}.

End Mock.

(** ** A laundromat to run the handler on *)

Module Laundromat.

Import Memory.

Definition washer : MachineStateDocument := mkMachine "m1" "L1" AVAILABLE None.
Definition dryer : MachineStateDocument := mkMachine "m2" "L1" RUNNING (Some "J0").
Definition press : MachineStateDocument := mkMachine "m3" "L2" AWAITING_DROPOFF (Some "J7").
Definition mangle : MachineStateDocument := mkMachine "m4" "L2" ERROR (Some "J8").

(** All goes well: no outage, every cycle starts. *)
Definition quiet : World :=
  mkWorld [dryer; washer; press; mangle] ∅ ["secret"] [] [].

(** The press breaks down at the start command, and the table is out
    at its third call. *)
Definition stormy : World :=
  mkWorld [dryer; washer; press; mangle] ∅ ["secret"]
          [false; false; true] [BreaksDown].

(** The table is out at its first call. *)
Definition blackout : World :=
  mkWorld [dryer; washer; press; mangle] ∅ ["secret"] [true] [].

(** The table is out at its seventh call. *)
Definition flaky : World :=
  mkWorld [dryer; washer; press; mangle] ∅ ["secret"]
          [false; false; false; false; false; false; true] [].

(** The washer once reserved for job J1. *)
Definition reserved : MachineStateDocument :=
  mkMachine "m1" "L1" AWAITING_DROPOFF (Some "J1").

(** The press breaks down at the start command; the table is up. *)
Definition brokenPress : World :=
  mkWorld [dryer; washer; press; mangle] ∅ ["secret"] [] [BreaksDown].

(** The press once it has broken down. *)
Definition brokenDown : MachineStateDocument :=
  mkMachine "m3" "L2" ERROR (Some "J7").

(** The washer reserved for J1 and then started. *)
Definition spinning : MachineStateDocument :=
  mkMachine "m1" "L1" RUNNING (Some "J1").

(** The dryer as it was cached when it awaited its drop-off. *)
Definition dryerBefore : MachineStateDocument :=
  mkMachine "m2" "L1" AWAITING_DROPOFF (Some "J0").

(** All goes well, but the cache holds an old record of the dryer: the
    table has been written since by another process. *)
Definition stale : World :=
  mkWorld [dryer; washer; press; mangle] {[ "m2" := dryerBefore ]} ["secret"] [] [].

Definition post (path : string) : RequestModel :=
  Model.mkRequest "POST" path "secret" "L1" "J1".

Definition fetch (path : string) : RequestModel :=
  Model.mkRequest "GET" path "secret" "" "".

End Laundromat.

(** ** Worlds compared *)



(** The machine an operation has worked on, given the record it returns:
    the machine of the request for GetMachine and StartMachine, the machine
    taken for RequestMachine. *)
Definition operated (op : Operation.t) (u : MachineStateDocument) : string :=
  match op with
  | Operation.RequestMachine _ => machineId u
  | Operation.GetMachine request | Operation.StartMachine request =>
      Model.machineId request
  end.

(** After a run of [op] from [w].  Every entry is the one of before or the
    record last observed.  After OK or HARDWARE_ERROR the cache is the one of
    before with the record returned under the machine worked on, and that
    record is the last one observed of that machine, or, for a GetMachine
    answered from the cache, the entry that was there.  After any other code
    the cache is as it was. *)
Definition observedEntries (op : Operation.t) (w : Memory.World)
    (response : MachineResponseModel) (s' : Session Memory.World) : Prop :=
  (∀ id c, Memory.entries (world s') !! id = Some c →
           Memory.entries w !! id = Some c ∨ lastObserved id (trace s') = Some c)
  ∧ (statusCode response = OK ∨ statusCode response = HARDWARE_ERROR →
     ∃ u,
       machine response = Some u
       ∧ Memory.entries (world s') = <[operated op u := u]> (Memory.entries w)
       ∧ (lastObserved (operated op u) (trace s') = Some u
          ∨ (∃ request,
               op = Operation.GetMachine request
               ∧ Memory.entries w !! Model.machineId request = Some u
               ∧ trace s' = [(CacheGet (Model.machineId request), Found (Some u))])))
  ∧ (statusCode response ≠ OK → statusCode response ≠ HARDWARE_ERROR →
     Memory.entries (world s') = Memory.entries w).

(** ** Runs of an operation *)

(** The operation, started in session [s], returns [response] after the
    calls [evs], leaving the world [w']. *)
Definition runs {W} (this : ApiHandler W) (op : Operation.t) (s : Session W)
    (response : MachineResponseModel) (evs : list Event) (w' : W) : Prop :=
  perform this op s = Returned response (mkSession w' (trace s ++ evs)).

(** Did a call raise? *)
Definition raised (ev : Event) : bool :=
  match ev.2 with Raised => true | _ => false end.

(** The responses that carry a record. *)
Definition carriesRecord (code : HttpResponseCode) : bool :=
  match code with
  | OK | BAD_REQUEST | HARDWARE_ERROR => true
  | _ => false
  end.

(** The codes an operation can answer. *)
Definition codesOf (op : Operation.t) : list HttpResponseCode :=
  match op with
  | Operation.RequestMachine _ => [OK; NOT_FOUND; INTERNAL_SERVER_ERROR]
  | Operation.GetMachine _ => [OK; NOT_FOUND; INTERNAL_SERVER_ERROR]
  | Operation.StartMachine _ =>
      [OK; NOT_FOUND; BAD_REQUEST; INTERNAL_SERVER_ERROR; HARDWARE_ERROR]
  end.

(** The machine a call is about; a listing and a token are about none. *)
Definition machineOf (c : Call) : option string :=
  match c with
  | GetMachine i | UpdateMachineStatus i _ | UpdateMachineJobId i _
  | CacheGet i | CachePut i _ | StartCycle i => Some i
  | ValidateToken _ | ListMachinesAtLocation _ => None
  end.

(** The methods an operation may call. *)
Definition mayCall (op : Operation.t) (c : Call) : bool :=
  match op, c with
  | Operation.RequestMachine _, (ListMachinesAtLocation _ | UpdateMachineStatus _ _
                                | UpdateMachineJobId _ _ | GetMachine _ | CachePut _ _) => true
  | Operation.GetMachine _, (CacheGet _ | GetMachine _ | CachePut _ _) => true
  | Operation.StartMachine _, (GetMachine _ | StartCycle _ | UpdateMachineStatus _ _
                              | CachePut _ _) => true
  | _, _ => false
  end.

(** A put in the cache that was served. *)
Definition isServedPut (ev : Event) : bool :=
  match ev with (CachePut _ _, Void) => true | _ => false end.

(** The calls that change something: a field of a row, an entry of the
    cache, the state of a device. *)
Definition changes (ev : Event) : bool :=
  match ev.1 with
  | UpdateMachineStatus _ _ | UpdateMachineJobId _ _ | CachePut _ _
  | StartCycle _ => true
  | _ => false
  end.

Definition writesStatus (st : MachineStatus) (ev : Event) : bool :=
  match ev.1 with
  | UpdateMachineStatus _ st' => bool_decide (st' = st)
  | _ => false
  end.

(** ** Paths, as the router reads them *)

(** A string of id characters only. *)
Fixpoint allIdChars (s : string) : bool :=
  match s with
  | EmptyString => true
  | String c s' => isIdChar c && allIdChars s'
  end.

(** A string that is empty or starts with a character that is not an id
    character, as both suffixes of the router's patterns do. *)
Definition startsOutsideIds (s : string) : bool :=
  match s with
  | EmptyString => true
  | String c _ => negb (isIdChar c)
  end.

(** [/machine/<id><suffix>], for a proper id. *)
Definition machinePath (id suffix path : string) : Prop :=
  path = "/machine/" +:+ id +:+ suffix ∧ id ≠ "" ∧ allIdChars id = true.

(** The session after the token of a request was accepted. *)
Definition admitted {W} (s : Session W) (token : string) (w1 : W) : Session W :=
  mkSession w1 (trace s ++ [(ValidateToken token, Flag true)]).

(** ** The cache against the table *)

(** Every entry of the cache is the row of its machine. *)
Definition coherent (w : Memory.World) : Prop :=
  ∀ id c, Memory.entries w !! id = Some c → Memory.row id (Memory.rows w) = Some c.

(** The most calls an operation makes. *)
Definition mostCalls (op : Operation.t) : nat :=
  match op with
  | Operation.RequestMachine _ => 5
  | Operation.GetMachine _ => 3
  | Operation.StartMachine _ => 8
  end.

(** ** Runs on the laundromat *)

Module Scenes.

Import Memory.

(** Where a run has ended, whether it returned or threw. *)
Definition ended {W A} (out : Outcome (Session W) A) : Session W :=
  match out with
  | Returned _ s => s
  | Threw _ s => s
  end.

Definition startPress : Operation.t :=
  Operation.StartMachine
    (Model.mkWithMachineId (Laundromat.post "/machine/m3/start") "m3").

Definition startDryer : Operation.t :=
  Operation.StartMachine
    (Model.mkWithMachineId (Laundromat.post "/machine/m2/start") "m2").

(** The press once started. *)
Definition pressing : MachineStateDocument :=
  mkMachine "m3" "L2" RUNNING (Some "J7").

(** The press is started and breaks down. *)
Definition afterBreakdown : Session World :=
  Eval vm_compute in
    ended (perform apiHandler startPress (fresh Laundromat.brokenPress)).

(** The press is started and runs. *)
Definition afterStart : Session World :=
  Eval vm_compute in
    ended (perform apiHandler startPress (fresh Laundromat.quiet)).

(** The dryer, which is running, is started. *)
Definition afterRefusal : Session World :=
  Eval vm_compute in
    ended (perform apiHandler startDryer (fresh Laundromat.quiet)).

(** The washer is reserved for J1. *)
Definition afterReservation : Session World :=
  Eval vm_compute in
    ended (handleRequestMachine apiHandler (Laundromat.post "/machine/request")
             (fresh Laundromat.quiet)).

(** The device refuses the coming start command. *)
Definition stubborn : World :=
  mkWorld [Laundromat.dryer; Laundromat.washer; Laundromat.press; Laundromat.mangle]
          ∅ ["secret"] [] [Refuses].

(** The table is out at its third call. *)
Definition halfway : World :=
  mkWorld [Laundromat.dryer; Laundromat.washer; Laundromat.press; Laundromat.mangle]
          ∅ ["secret"] [false; false; true] [].

(** The dryer is cached as it is in the table. *)
Definition cached : World :=
  mkWorld [Laundromat.dryer; Laundromat.washer; Laundromat.press; Laundromat.mangle]
          {[ "m2" := Laundromat.dryer ]} ["secret"] [] [].

(** A second washer at L1. *)
Definition washer2 : MachineStateDocument := mkMachine "m5" "L1" AVAILABLE None.

Definition reserved2 : MachineStateDocument :=
  mkMachine "m5" "L1" AWAITING_DROPOFF (Some "J1").

Definition twoWashers : World :=
  mkWorld [Laundromat.washer; washer2] ∅ ["secret"] [] [].

Definition afterFirst : Session World :=
  Eval vm_compute in
    ended (handleRequestMachine apiHandler (Laundromat.post "/machine/request")
             (fresh twoWashers)).

Definition afterSecond : Session World :=
  Eval vm_compute in
    ended (handleRequestMachine apiHandler (Laundromat.post "/machine/request")
             afterFirst).

End Scenes.

(** * Properties *)

(** Unfold one handler down to the collaborators' methods. *)
Ltac expose :=
  unfold handle, checkToken, handleRequestMachine, handleGetMachine,
    handleStartMachine, try_catch, throw,
    idp_validateToken, db_listMachinesAtLocation, db_getMachine,
    db_updateMachineStatus, db_updateMachineJobId, cache_get, cache_put,
    smartMachine_startCycle, invoke, mbind, M_bind, mret, M_ret;
  simpl.

(** Follow the run along the replies given as hypotheses. *)
Ltac follow :=
  repeat (match goal with
          | H : ?call = _ |- context [match ?call with _ => _ end] => rewrite H
          | H : ?st = _ |- context [bool_decide (?st = _)] => rewrite H
          | H : ?st ≠ ?v |- context [bool_decide (?st = ?v)] =>
              rewrite (bool_decide_eq_false_2 _ H)
          end; simpl).

(** ** The router and a scenario, run *)

Example path_of_a_machine : matchMachinePath "" "/machine/abc-1" = Some "abc-1".
Proof. reflexivity. Qed.

Example path_without_id : matchMachinePath "" "/machine/" = None.
Proof. reflexivity. Qed.

Example path_with_other_character : matchMachinePath "" "/machine/a_b" = None.
Proof. reflexivity. Qed.

Example path_is_matched_whole : matchMachinePath "" "/machine/m1/start" = None.
Proof. reflexivity. Qed.

Example path_of_a_start : matchMachinePath "/start" "/machine/m1/start" = Some "m1".
Proof. reflexivity. Qed.

(** Reserve the washer for J1, start it, and try to start it again. *)
Example reserve_start_and_repeat :
  returns
    ((first ← handle Memory.apiHandler (Laundromat.post "/machine/request");
      second ← handle Memory.apiHandler (Laundromat.post "/machine/m1/start");
      third ← handle Memory.apiHandler (Laundromat.post "/machine/m1/start");
      mret [first; second; third]) (Memory.fresh Laundromat.quiet))
    (λ responses s',
       responses = [ {| statusCode := OK; machine := Some Laundromat.reserved |};
                     {| statusCode := OK; machine := Some Laundromat.spinning |};
                     {| statusCode := BAD_REQUEST; machine := Some Laundromat.spinning |} ]
       ∧ Memory.entries (world s') !! "m1" = Some Laundromat.spinning).
Proof. vm_compute. split; reflexivity. Qed.

(** An unknown machine in an empty table: NOT_FOUND, nothing cached. *)
Example unknown_machine :
  handle Memory.apiHandler (Laundromat.fetch "/machine/unknown")
    (Memory.fresh (Memory.mkWorld [] ∅ ["secret"] [] []))
  = Returned {| statusCode := NOT_FOUND; machine := None |}
      (mkSession (Memory.mkWorld [] ∅ ["secret"] [] [])
         [(ValidateToken "secret", Flag true);
          (CacheGet "unknown", Found None);
          (GetMachine "unknown", Found None)]).
Proof. vm_compute. reflexivity. Qed.

(** A request that matches no route. *)
Example unmatched_route :
  handle Memory.apiHandler (Laundromat.fetch "/machines")
    (Memory.fresh Laundromat.quiet)
  = Returned {| statusCode := INTERNAL_SERVER_ERROR; machine := None |}
      (mkSession Laundromat.quiet [(ValidateToken "secret", Flag true)]).
Proof. vm_compute. reflexivity. Qed.

Lemma find_none_of_Forall {A} (p : A → bool) (l : list A) :
  Forall (λ x, p x = false) l → find p l = None.
Proof.
  induction 1 as [|x l Hx _ IH]; simpl; [reflexivity|].
  rewrite Hx. exact IH.
Qed.

Section Replies.

Context {W : Type}.
Variable this : ApiHandler W.

Implicit Types (s : Session W) (req : RequestModel) (id : string).
Implicit Types (m r u c : MachineStateDocument).

(** The reservation goes through when every call is served. *)
Lemma request_reserves_run req s ms a u w1 w2 w3 w4 w5 :
  listMachinesAtLocation (db this) (Model.locationId req) (world s) = Returned ms w1 →
  find (λ m, bool_decide (status m = AVAILABLE)) ms = Some a →
  updateMachineStatus (db this) (machineId a) AWAITING_DROPOFF w1 = Returned () w2 →
  updateMachineJobId (db this) (machineId a) (Model.jobId req) w2 = Returned () w3 →
  getMachine (db this) (machineId a) w3 = Returned (Some u) w4 →
  put (cache this) (machineId a) u w4 = Returned () w5 →
  handleRequestMachine this req s =
    Returned {| statusCode := OK; machine := Some u |}
      (mkSession w5
         (trace s ++ [(ListMachinesAtLocation (Model.locationId req), Listing ms);
                   (UpdateMachineStatus (machineId a) AWAITING_DROPOFF, Void);
                   (UpdateMachineJobId (machineId a) (Model.jobId req), Void);
                   (GetMachine (machineId a), Found (Some u));
                   (CachePut (machineId a) u, Void)])).
Proof.
  intros Hl Hf H1 H2 H3 H4. expose. follow. by rewrite <- !app_assoc.
Qed.

(** The start goes through when every call is served. *)
Lemma start_runs_run req id s m u w1 w2 w3 w4 w5 :
  getMachine (db this) id (world s) = Returned (Some m) w1 →
  status m = AWAITING_DROPOFF →
  startCycle (smartMachine this) id w1 = Returned () w2 →
  updateMachineStatus (db this) id RUNNING w2 = Returned () w3 →
  getMachine (db this) id w3 = Returned (Some u) w4 →
  put (cache this) id u w4 = Returned () w5 →
  handleStartMachine this (Model.mkWithMachineId req id) s =
    Returned {| statusCode := OK; machine := Some u |}
      (mkSession w5
         (trace s ++ [(GetMachine id, Found (Some m));
                   (StartCycle id, Void);
                   (UpdateMachineStatus id RUNNING, Void);
                   (GetMachine id, Found (Some u));
                   (CachePut id u, Void)])).
Proof.
  intros H0 Hm H1 H2 H3 H4. expose. follow. by rewrite <- !app_assoc.
Qed.

(** The post-update re-read finds nothing. *)
Lemma start_lost_run req id s m w1 w2 w3 w4 :
  getMachine (db this) id (world s) = Returned (Some m) w1 →
  status m = AWAITING_DROPOFF →
  startCycle (smartMachine this) id w1 = Returned () w2 →
  updateMachineStatus (db this) id RUNNING w2 = Returned () w3 →
  getMachine (db this) id w3 = Returned None w4 →
  handleStartMachine this (Model.mkWithMachineId req id) s =
    Returned {| statusCode := INTERNAL_SERVER_ERROR; machine := None |}
      (mkSession w4
         (trace s ++ [(GetMachine id, Found (Some m));
                   (StartCycle id, Void);
                   (UpdateMachineStatus id RUNNING, Void);
                   (GetMachine id, Found None)])).
Proof.
  intros H0 Hm H1 H2 H3. expose. follow. by rewrite <- !app_assoc.
Qed.

(** The catch block of the start, entered after a first read that
    itself raised. *)
Lemma start_blind_run req id s e r w1 w2 w3 w4 :
  getMachine (db this) id (world s) = Threw e w1 →
  getMachine (db this) id w1 = Returned (Some r) w2 →
  status r = ERROR →
  updateMachineStatus (db this) id ERROR w2 = Returned () w3 →
  put (cache this) id r w3 = Returned () w4 →
  handleStartMachine this (Model.mkWithMachineId req id) s =
    Returned {| statusCode := HARDWARE_ERROR; machine := Some r |}
      (mkSession w4
         (trace s ++ [(GetMachine id, Raised);
                   (GetMachine id, Found (Some r));
                   (UpdateMachineStatus id ERROR, Void);
                   (CachePut id r, Void)])).
Proof.
  intros H0 H1 Hr H2 H3. expose. follow. by rewrite <- !app_assoc.
Qed.

End Replies.

(** ** The table in memory *)

Section Rows.

Import Memory.
Implicit Types (t : list MachineStateDocument) (id : string).
Implicit Types (f : MachineStateDocument → MachineStateDocument).

Lemma row_alterRow id id' f t :
  (∀ m, machineId (f m) = machineId m) →
  row id' (alterRow id f t) = if String.eqb id' id then f <$> row id' t else row id' t.
Proof.
  intros Hf. unfold row. induction t as [|m t IH]; simpl.
  - by destruct (String.eqb id' id).
  - destruct (String.eqb (machineId m) id) eqn:E; simpl.
    + rewrite Hf. apply String.eqb_eq in E. subst id.
      destruct (String.eqb (machineId m) id') eqn:E'.
      * apply String.eqb_eq in E'. subst id'. by rewrite String.eqb_refl.
      * rewrite String.eqb_sym, E'. reflexivity.
    + destruct (String.eqb (machineId m) id') eqn:E'; [|exact IH].
      apply String.eqb_eq in E'. subst id'. by rewrite E.
Qed.

Lemma alterRow_fixed id f t r : row id t = Some r → f r = r → alterRow id f t = t.
Proof.
  unfold row. intros Hr Hf. induction t as [|m t IH]; simpl in *; [done|].
  destruct (String.eqb (machineId m) id); [by simplify_eq; rewrite Hf|].
  by rewrite IH.
Qed.

Lemma ids_alterRow id f t :
  (∀ m, machineId (f m) = machineId m) →
  map machineId (alterRow id f t) = map machineId t.
Proof.
  intros Hf. induction t as [|m t IH]; simpl; [done|].
  destruct (String.eqb (machineId m) id); simpl; [by rewrite Hf|by rewrite IH].
Qed.

Lemma row_of_member t a : keyed t → In a t → row (machineId a) t = Some a.
Proof.
  unfold keyed, row. induction t as [|m t IH]; simpl; [done|].
  intros Hk Hin. apply NoDup_cons in Hk as [Hm Hk].
  destruct Hin as [->|Hin]; [by rewrite String.eqb_refl|].
  destruct (String.eqb (machineId m) (machineId a)) eqn:E; [|by apply IH].
  apply String.eqb_eq in E. exfalso. apply Hm. rewrite E.
  apply list_elem_of_In, in_map, Hin.
Qed.

Lemma first_of_listing t l (p : MachineStateDocument → bool) a :
  find p (atLocation l t) = Some a → In a t ∧ p a = true.
Proof.
  intros H. apply find_some in H as [Hin Hp]. split; [|done].
  unfold atLocation in Hin. by apply filter_In in Hin as [? _].
Qed.

End Rows.

(** ** The claims that follow the calls *)

Section Calls.

Context {W : Type}.
Variable this : ApiHandler W.

Implicit Types (s : Session W) (req : RequestModel) (id : string).
Implicit Types (m r u c : MachineStateDocument).

(** C6.  GetMachine is a cache-aside read.  On a cache hit the result is
    OK with the cached record and the lookup in the cache is the only call
    made: the table is not consulted, nothing is written.  On a miss
    with the machine in the table, that record is put in the cache under
    the id and returned with OK.  On a miss with no such machine, the result
    is NOT_FOUND and nothing is put in the cache. *)
Theorem getMachine_cache_aside req id s :
  (∀ c w1,
     get (cache this) id (world s) = Returned (Some c) w1 →
     handleGetMachine this (Model.mkWithMachineId req id) s =
       Returned {| statusCode := OK; machine := Some c |}
         (mkSession w1 (trace s ++ [(CacheGet id, Found (Some c))])))
  ∧ (∀ m w1 w2 w3,
     get (cache this) id (world s) = Returned None w1 →
     getMachine (db this) id w1 = Returned (Some m) w2 →
     put (cache this) id m w2 = Returned () w3 →
     handleGetMachine this (Model.mkWithMachineId req id) s =
       Returned {| statusCode := OK; machine := Some m |}
         (mkSession w3 (trace s ++ [(CacheGet id, Found None);
                                    (GetMachine id, Found (Some m));
                                    (CachePut id m, Void)])))
  ∧ (∀ w1 w2,
     get (cache this) id (world s) = Returned None w1 →
     getMachine (db this) id w1 = Returned None w2 →
     handleGetMachine this (Model.mkWithMachineId req id) s =
       Returned {| statusCode := NOT_FOUND; machine := None |}
         (mkSession w2 (trace s ++ [(CacheGet id, Found None);
                                    (GetMachine id, Found None)]))).
Proof.
  repeat split; intros; expose; follow; by rewrite <- ?app_assoc.
Qed.

(** C7.  StartMachine on a machine that the table returns in a status
    other than AWAITING_DROPOFF answers BAD_REQUEST with that very
    record; the read is the only call made, so no start command goes to
    the device and neither the table nor the cache is written. *)
Theorem startMachine_rejects_other_status req id s m w1 :
  getMachine (db this) id (world s) = Returned (Some m) w1 →
  status m ≠ AWAITING_DROPOFF →
  handleStartMachine this (Model.mkWithMachineId req id) s =
    Returned {| statusCode := BAD_REQUEST; machine := Some m |}
      (mkSession w1 (trace s ++ [(GetMachine id, Found (Some m))])).
Proof. intros H0 Hm. expose. follow. reflexivity. Qed.

(** C8.  A request whose token the identity provider rejects, whatever
    its method and path, ends in the UNAUTHORIZED error; the validation
    is the only call made: no call of the table, the cache or the
    device. *)
Theorem handle_rejected_token req s w1 :
  validateToken (idp this) (Model.token req) (world s) = Returned false w1 →
  handle this req s =
    Threw (ErrorJSON UNAUTHORIZED "Invalid token")
      (mkSession w1 (trace s ++ [(ValidateToken (Model.token req), Flag false)])).
Proof. intros H. expose. follow. reflexivity. Qed.

(** C9.  RequestMachine at a location whose listing holds no AVAILABLE
    machine (the empty listing included) answers NOT_FOUND without a
    machine; the listing is the only call made, so the table is not
    updated and nothing is put in the cache. *)
Theorem requestMachine_none_available req s ms w1 :
  listMachinesAtLocation (db this) (Model.locationId req) (world s) = Returned ms w1 →
  Forall (λ m, status m ≠ AVAILABLE) ms →
  handleRequestMachine this req s =
    Returned {| statusCode := NOT_FOUND; machine := None |}
      (mkSession w1
         (trace s ++ [(ListMachinesAtLocation (Model.locationId req), Listing ms)])).
Proof.
  intros Hl Hms. expose. follow.
  rewrite find_none_of_Forall; [reflexivity|].
  eapply Forall_impl; [exact Hms|]. intros m Hm. simpl in Hm.
  by apply bool_decide_eq_false_2.
Qed.

End Calls.

(** C6 on the laundromat.  A hit: the dryer is cached, in an old state, and
    that record is returned; the world is as it was.  A miss on a machine of
    the table: the dryer is read, cached and returned.  A miss on an unknown
    machine. *)
Lemma getMachine_cache_aside_witness :
  handleGetMachine Memory.apiHandler
    (Model.mkWithMachineId (Laundromat.fetch "/machine/m2") "m2")
    (Memory.fresh Laundromat.stale)
  = Returned {| statusCode := OK; machine := Some Laundromat.dryerBefore |}
      (mkSession Laundromat.stale [(CacheGet "m2", Found (Some Laundromat.dryerBefore))])
  ∧ handleGetMachine Memory.apiHandler
      (Model.mkWithMachineId (Laundromat.fetch "/machine/m2") "m2")
      (Memory.fresh Laundromat.quiet)
    = Returned {| statusCode := OK; machine := Some Laundromat.dryer |}
        (mkSession
           (Memory.mkWorld (Memory.rows Laundromat.quiet) {[ "m2" := Laundromat.dryer ]}
              ["secret"] [] [])
           [(CacheGet "m2", Found None);
            (GetMachine "m2", Found (Some Laundromat.dryer));
            (CachePut "m2" Laundromat.dryer, Void)])
  ∧ handleGetMachine Memory.apiHandler
      (Model.mkWithMachineId (Laundromat.fetch "/machine/m9") "m9")
      (Memory.fresh Laundromat.quiet)
    = Returned {| statusCode := NOT_FOUND; machine := None |}
        (mkSession Laundromat.quiet
           [(CacheGet "m9", Found None); (GetMachine "m9", Found None)]).
Proof.
  split; [|split].
  - refine (proj1 (getMachine_cache_aside Memory.apiHandler _ "m2"
                     (Memory.fresh Laundromat.stale))
              Laundromat.dryerBefore Laundromat.stale _).
    vm_compute. reflexivity.
  - refine (proj1 (proj2 (getMachine_cache_aside Memory.apiHandler _ "m2"
                            (Memory.fresh Laundromat.quiet)))
              Laundromat.dryer Laundromat.quiet Laundromat.quiet _ _ _ _);
      reflexivity.
  - refine (proj2 (proj2 (getMachine_cache_aside Memory.apiHandler _ "m9"
                            (Memory.fresh Laundromat.quiet)))
              Laundromat.quiet Laundromat.quiet _ _);
      reflexivity.
Defined.

(** C7 on the laundromat: the dryer is RUNNING. *)
Lemma startMachine_rejects_other_status_witness :
  handleStartMachine Memory.apiHandler
    (Model.mkWithMachineId (Laundromat.post "/machine/m2/start") "m2")
    (Memory.fresh Laundromat.quiet)
  = Returned {| statusCode := BAD_REQUEST; machine := Some Laundromat.dryer |}
      (mkSession Laundromat.quiet [(GetMachine "m2", Found (Some Laundromat.dryer))]).
Proof.
  apply (startMachine_rejects_other_status Memory.apiHandler _ "m2"
           (Memory.fresh Laundromat.quiet) Laundromat.dryer Laundromat.quiet);
    [reflexivity | discriminate].
Defined.

(** C8 on the laundromat: a token that the identity provider does not know. *)
Lemma handle_rejected_token_witness :
  handle Memory.apiHandler
    (Model.mkRequest "POST" "/machine/request" "guess" "L1" "J1")
    (Memory.fresh Laundromat.quiet)
  = Threw (ErrorJSON UNAUTHORIZED "Invalid token")
      (mkSession Laundromat.quiet [(ValidateToken "guess", Flag false)]).
Proof.
  apply (handle_rejected_token Memory.apiHandler
           (Model.mkRequest "POST" "/machine/request" "guess" "L1" "J1")
           (Memory.fresh Laundromat.quiet) Laundromat.quiet).
  reflexivity.
Defined.

(** C9 on the laundromat: neither machine at L2 is AVAILABLE. *)
Lemma requestMachine_none_available_witness :
  handleRequestMachine Memory.apiHandler
    (Model.mkRequest "POST" "/machine/request" "secret" "L2" "J1")
    (Memory.fresh Laundromat.quiet)
  = Returned {| statusCode := NOT_FOUND; machine := None |}
      (mkSession Laundromat.quiet
         [(ListMachinesAtLocation "L2", Listing [Laundromat.press; Laundromat.mangle])]).
Proof.
  apply (requestMachine_none_available Memory.apiHandler
           (Model.mkRequest "POST" "/machine/request" "secret" "L2" "J1")
           (Memory.fresh Laundromat.quiet)
           [Laundromat.press; Laundromat.mangle] Laundromat.quiet).
  - reflexivity.
  - repeat constructor; discriminate.
Defined.

(** ** The start of a cycle and its faults *)

Section Start.

Context {W : Type}.
Variable this : ApiHandler W.

Implicit Types (s : Session W) (req : RequestModel) (id : string).
Implicit Types (m r u c : MachineStateDocument).

(** C2, amended.  StartMachine has found the machine in
    AWAITING_DROPOFF and then the start command, or the update to
    RUNNING, raises.  If the re-read is served with a record in ERROR,
    and the write of ERROR and the put in the cache are served too, the
    result is HARDWARE_ERROR with that record, which is the one put in the
    cache.  In every other outcome (the re-read raises, finds nothing or
    finds another status, the write of ERROR raises, the put raises) the
    result is INTERNAL_SERVER_ERROR without a machine. *)
Theorem startMachine_fault_classification req id s m w1 e w2 :
  getMachine (db this) id (world s) = Returned (Some m) w1 →
  status m = AWAITING_DROPOFF →
  (startCycle (smartMachine this) id w1 = Threw e w2
   ∨ ∃ w, startCycle (smartMachine this) id w1 = Returned () w
          ∧ updateMachineStatus (db this) id RUNNING w = Threw e w2) →
  (∀ r w3 w4 w5,
     getMachine (db this) id w2 = Returned (Some r) w3 →
     status r = ERROR →
     updateMachineStatus (db this) id ERROR w3 = Returned () w4 →
     put (cache this) id r w4 = Returned () w5 →
     ∃ earlier,
       handleStartMachine this (Model.mkWithMachineId req id) s =
         Returned {| statusCode := HARDWARE_ERROR; machine := Some r |}
           (mkSession w5
              (earlier ++ [(GetMachine id, Found (Some r));
                           (UpdateMachineStatus id ERROR, Void);
                           (CachePut id r, Void)])))
  ∧ ((∃ e' w3, getMachine (db this) id w2 = Threw e' w3)
     ∨ (∃ w3, getMachine (db this) id w2 = Returned None w3)
     ∨ (∃ r w3,
          getMachine (db this) id w2 = Returned (Some r) w3
          ∧ (status r ≠ ERROR
             ∨ (∃ e' w4, updateMachineStatus (db this) id ERROR w3 = Threw e' w4)
             ∨ (∃ w4 e' w5,
                  updateMachineStatus (db this) id ERROR w3 = Returned () w4
                  ∧ put (cache this) id r w4 = Threw e' w5))) →
     ∃ s', handleStartMachine this (Model.mkWithMachineId req id) s =
             Returned {| statusCode := INTERNAL_SERVER_ERROR; machine := None |} s').
Proof.
  intros H0 Hm Hfault. split.
  - intros r w3 w4 w5 Hr Hst Hw Hp.
    destruct Hfault as [Hd|(w & Hd & Hu)].
    + exists (trace s ++ [(GetMachine id, Found (Some m)); (StartCycle id, Raised)]).
      expose. follow. by rewrite <- !app_assoc.
    + exists (trace s ++ [(GetMachine id, Found (Some m)); (StartCycle id, Void);
                          (UpdateMachineStatus id RUNNING, Raised)]).
      expose. follow. by rewrite <- !app_assoc.
  - intros Hother.
    destruct Hother as [(e' & w3 & Hr)|[(w3 & Hr)|(r & w3 & Hr & Hrest)]];
      [| |destruct Hrest as [Hst|[(e' & w4 & Hw)|(w4 & e' & w5 & Hw & Hp)]]];
      destruct Hfault as [Hd|(w & Hd & Hu)];
      expose; follow; eauto;
      destruct (bool_decide (status r = ERROR)); simpl; follow; eauto.
Qed.

End Start.

(** C2, amended, on the laundromat: the press breaks down at the start
    command and the table is up. *)
Lemma startMachine_fault_classification_witness :
  ∃ earlier,
    handleStartMachine Memory.apiHandler
      (Model.mkWithMachineId (Laundromat.post "/machine/m3/start") "m3")
      (Memory.fresh Laundromat.brokenPress)
    = Returned {| statusCode := HARDWARE_ERROR;
                  machine := Some (Laundromat.brokenDown) |}
        (mkSession
           (Memory.mkWorld
              [Laundromat.dryer; Laundromat.washer;
               Laundromat.brokenDown; Laundromat.mangle]
              {[ "m3" := Laundromat.brokenDown ]} ["secret"] [] [])
           (earlier ++ [(GetMachine "m3", Found (Some (Laundromat.brokenDown)));
                        (UpdateMachineStatus "m3" ERROR, Void);
                        (CachePut "m3" (Laundromat.brokenDown), Void)])).
Proof.
  refine (proj1 (startMachine_fault_classification Memory.apiHandler
                   (Laundromat.post "/machine/m3/start") "m3"
                   (Memory.fresh Laundromat.brokenPress)
                   Laundromat.press Laundromat.brokenPress CollaboratorFault
                   (Memory.mkWorld
                      [Laundromat.dryer; Laundromat.washer;
                       Laundromat.brokenDown; Laundromat.mangle]
                      ∅ ["secret"] [] [])
                   _ _ _)
            (Laundromat.brokenDown) _ _ _ _ _ _ _).
  - reflexivity.
  - reflexivity.
  - left. reflexivity.
  - reflexivity.
  - reflexivity.
  - reflexivity.
  - reflexivity.
Defined.

(** C2 as stated fails: the press is found in AWAITING_DROPOFF, the start
    command raises, the re-read is served and shows ERROR; but the write
    of ERROR that follows raises, and the result is INTERNAL_SERVER_ERROR,
    with nothing in the cache. *)
Lemma startMachine_fault_classification_counterexample :
  getMachine (db Memory.apiHandler) "m3" Laundromat.stormy
    = Returned (Some Laundromat.press)
        (Memory.mkWorld (Memory.rows Laundromat.stormy) ∅ ["secret"]
           [false; true] [Memory.BreaksDown])
  ∧ status Laundromat.press = AWAITING_DROPOFF
  ∧ startCycle (smartMachine Memory.apiHandler) "m3"
      (Memory.mkWorld (Memory.rows Laundromat.stormy) ∅ ["secret"]
         [false; true] [Memory.BreaksDown])
    = Threw CollaboratorFault
        (Memory.mkWorld
           [Laundromat.dryer; Laundromat.washer; Laundromat.brokenDown;
            Laundromat.mangle] ∅ ["secret"] [false; true] [])
  ∧ getMachine (db Memory.apiHandler) "m3"
      (Memory.mkWorld
         [Laundromat.dryer; Laundromat.washer; Laundromat.brokenDown;
          Laundromat.mangle] ∅ ["secret"] [false; true] [])
    = Returned (Some Laundromat.brokenDown)
        (Memory.mkWorld
           [Laundromat.dryer; Laundromat.washer; Laundromat.brokenDown;
            Laundromat.mangle] ∅ ["secret"] [true] [])
  ∧ status Laundromat.brokenDown = ERROR
  ∧ handleStartMachine Memory.apiHandler
      (Model.mkWithMachineId (Laundromat.post "/machine/m3/start") "m3")
      (Memory.fresh Laundromat.stormy)
    = Returned {| statusCode := INTERNAL_SERVER_ERROR; machine := None |}
        (mkSession
           (Memory.mkWorld
              [Laundromat.dryer; Laundromat.washer; Laundromat.brokenDown;
               Laundromat.mangle] ∅ ["secret"] [] [])
           [(GetMachine "m3", Found (Some Laundromat.press));
            (StartCycle "m3", Raised);
            (GetMachine "m3", Found (Some Laundromat.brokenDown));
            (UpdateMachineStatus "m3" ERROR, Raised)]).
Proof. repeat split. Qed.

(** C10.  StartMachine can answer HARDWARE_ERROR although no start
    command went to the device: the catch block covers the whole body, the
    first read included.  Here the first read of the mangle raises, the
    re-read shows it in ERROR, and the result is HARDWARE_ERROR with that
    record; the trace holds no start command.  The same holds with any
    collaborators that reply in this way. *)
Theorem startMachine_hardware_error_without_start :
  (∃ s',
     handleStartMachine Memory.apiHandler
       (Model.mkWithMachineId (Laundromat.post "/machine/m4/start") "m4")
       (Memory.fresh Laundromat.blackout)
     = Returned {| statusCode := HARDWARE_ERROR; machine := Some Laundromat.mangle |} s'
     ∧ head (trace s') = Some (GetMachine "m4", Raised)
     ∧ existsb isStartCycle (trace s') = false)
  ∧ (∀ W (this : ApiHandler W) req id (s : Session W) e r w1 w2 w3 w4,
       getMachine (db this) id (world s) = Threw e w1 →
       getMachine (db this) id w1 = Returned (Some r) w2 →
       status r = ERROR →
       updateMachineStatus (db this) id ERROR w2 = Returned () w3 →
       put (cache this) id r w3 = Returned () w4 →
       ∃ s',
         handleStartMachine this (Model.mkWithMachineId req id) s =
           Returned {| statusCode := HARDWARE_ERROR; machine := Some r |} s'
         ∧ existsb isStartCycle (since s s') = false).
Proof.
  split.
  - eexists. split; [reflexivity|]. split; reflexivity.
  - intros W this req id s e r w1 w2 w3 w4 H0 H1 Hr H2 H3.
    eexists. split; [by eapply start_blind_run|].
    unfold since. simpl. rewrite drop_app_length. reflexivity.
Qed.

(** ** When the table is up *)

Section Up.

Import Memory.
Implicit Types (w : World) (t : list MachineStateDocument) (id : string).

Lemma tableCall_up {A} (answer : list MachineStateDocument → A) after w :
  tableUp w →
  tableCall answer after w = Returned (answer (rows w)) (served after w)
  ∧ tableUp (served after w).
Proof.
  unfold tableUp, tableCall, outageDue, served. intros Hup.
  destruct (outages w) as [|b later]; simpl; [done|].
  apply Forall_cons in Hup as [-> Hup]. done.
Qed.

Lemma find_first {A} (p : A → bool) (before after : list A) (a : A) :
  Forall (λ x, p x = false) before → p a = true →
  find p (before ++ a :: after) = Some a.
Proof.
  induction 1 as [|x l Hx _ IH]; simpl; intros Ha; [by rewrite Ha|].
  rewrite Hx. by apply IH.
Qed.

Lemma row_withStatus id st t :
  row id (alterRow id (withStatus st) t) = withStatus st <$> row id t.
Proof. rewrite row_alterRow by done. by rewrite String.eqb_refl. Qed.

Lemma row_withJobId id j t :
  row id (alterRow id (withJobId j) t) = withJobId j <$> row id t.
Proof. rewrite row_alterRow by done. by rewrite String.eqb_refl. Qed.

Lemma withStatus_same (m : MachineStateDocument) :
  withStatus (status m) m = m.
Proof. by destruct m. Qed.

End Up.

(** C5.  StartMachine on a machine read in AWAITING_DROPOFF whose start
    command is served.  With any collaborators: when the update to
    RUNNING, the re-read and the put are served, the calls are the read,
    the start command, the update to RUNNING, the re-read and the put of the
    re-read record, and the result is OK with that record; when the re-read
    finds nothing, the result is INTERNAL_SERVER_ERROR without a machine and
    nothing is put in the cache.  With the table and cache in memory and
    the table up: the row of the machine becomes RUNNING, the cache holds
    that row, and it is the record returned. *)
Theorem startMachine_starts :
  (∀ W (this : ApiHandler W) req id (s : Session W) m u w1 w2 w3 w4 w5,
     getMachine (db this) id (world s) = Returned (Some m) w1 →
     status m = AWAITING_DROPOFF →
     startCycle (smartMachine this) id w1 = Returned () w2 →
     updateMachineStatus (db this) id RUNNING w2 = Returned () w3 →
     getMachine (db this) id w3 = Returned (Some u) w4 →
     put (cache this) id u w4 = Returned () w5 →
     handleStartMachine this (Model.mkWithMachineId req id) s =
       Returned {| statusCode := OK; machine := Some u |}
         (mkSession w5
            (trace s ++ [(GetMachine id, Found (Some m));
                         (StartCycle id, Void);
                         (UpdateMachineStatus id RUNNING, Void);
                         (GetMachine id, Found (Some u));
                         (CachePut id u, Void)])))
  ∧ (∀ W (this : ApiHandler W) req id (s : Session W) m w1 w2 w3 w4,
     getMachine (db this) id (world s) = Returned (Some m) w1 →
     status m = AWAITING_DROPOFF →
     startCycle (smartMachine this) id w1 = Returned () w2 →
     updateMachineStatus (db this) id RUNNING w2 = Returned () w3 →
     getMachine (db this) id w3 = Returned None w4 →
     handleStartMachine this (Model.mkWithMachineId req id) s =
       Returned {| statusCode := INTERNAL_SERVER_ERROR; machine := None |}
         (mkSession w4
            (trace s ++ [(GetMachine id, Found (Some m));
                         (StartCycle id, Void);
                         (UpdateMachineStatus id RUNNING, Void);
                         (GetMachine id, Found None)])))
  ∧ (∀ req id (s : Session Memory.World) m,
     Memory.tableUp (world s) →
     Memory.deviceTurn (world s) = Memory.Starts →
     Memory.row id (Memory.rows (world s)) = Some m →
     status m = AWAITING_DROPOFF →
     ∃ s',
       handleStartMachine Memory.apiHandler (Model.mkWithMachineId req id) s =
         Returned {| statusCode := OK; machine := Some (withStatus RUNNING m) |} s'
       ∧ Memory.row id (Memory.rows (world s')) = Some (withStatus RUNNING m)
       ∧ Memory.entries (world s') !! id = Some (withStatus RUNNING m)).
Proof.
  split; [|split].
  - intros. by eapply start_runs_run.
  - intros. by eapply start_lost_run.
  - intros req id s m Hup Hdev Hrow Hm.
    destruct (tableCall_up (Memory.row id) (λ t, t) (world s) Hup) as [H1 Hup1].
    set (w1 := Memory.served (λ t, t) (world s)) in *.
    set (w2 := Memory.mkWorld (Memory.rows w1) (Memory.entries w1) (Memory.tokens w1)
                 (Memory.outages w1) (tail (Memory.devices w1))).
    assert (Memory.tableUp w2) as Hup2 by exact Hup1.
    destruct (tableCall_up (λ _, ()) (Memory.alterRow id (withStatus RUNNING)) w2 Hup2)
      as [H3 Hup3].
    set (w3 := Memory.served (Memory.alterRow id (withStatus RUNNING)) w2) in *.
    destruct (tableCall_up (Memory.row id) (λ t, t) w3 Hup3) as [H4 _].
    assert (Memory.row id (Memory.rows w3) = Some (withStatus RUNNING m)) as Hrow3.
    { simpl. rewrite row_withStatus, Hrow. reflexivity. }
    eexists. split.
    + eapply (start_runs_run Memory.apiHandler req id s m (withStatus RUNNING m) w1 w2 w3).
      * rewrite <- Hrow. exact H1.
      * exact Hm.
      * simpl. unfold Memory.deviceTurn in *. simpl. rewrite Hdev. reflexivity.
      * exact H3.
      * rewrite <- Hrow3. exact H4.
      * reflexivity.
    + simpl. split; [exact Hrow3|]. apply lookup_insert_eq.
Qed.

(** C5 on the laundromat, where the press awaits its drop-off; and with
    test doubles whose re-read finds nothing. *)
Lemma startMachine_starts_witness :
  (∃ s',
     handleStartMachine Memory.apiHandler
       (Model.mkWithMachineId (Laundromat.post "/machine/m3/start") "m3")
       (Memory.fresh Laundromat.quiet)
     = Returned {| statusCode := OK;
                   machine := Some (withStatus RUNNING Laundromat.press) |} s'
     ∧ Memory.row "m3" (Memory.rows (world s')) = Some (withStatus RUNNING Laundromat.press)
     ∧ Memory.entries (world s') !! "m3" = Some (withStatus RUNNING Laundromat.press))
  ∧ handleStartMachine Mock.apiHandler
      (Model.mkWithMachineId (Laundromat.post "/machine/m3/start") "m3")
      (mkSession [Found (Some Laundromat.press); Void; Void; Found None] [])
    = Returned {| statusCode := INTERNAL_SERVER_ERROR; machine := None |}
        (mkSession []
           [(GetMachine "m3", Found (Some Laundromat.press));
            (StartCycle "m3", Void);
            (UpdateMachineStatus "m3" RUNNING, Void);
            (GetMachine "m3", Found None)]).
Proof.
  split.
  - apply (proj2 (proj2 startMachine_starts)
             (Laundromat.post "/machine/m3/start") "m3"
             (Memory.fresh Laundromat.quiet) Laundromat.press).
    + apply Forall_nil_2.
    + reflexivity.
    + reflexivity.
    + reflexivity.
  - apply (proj1 (proj2 startMachine_starts) Mock.World Mock.apiHandler
             (Laundromat.post "/machine/m3/start") "m3"
             (mkSession [Found (Some Laundromat.press); Void; Void; Found None] [])
             Laundromat.press
             [Void; Void; Found None] [Void; Found None] [Found None] []);
      reflexivity.
Defined.

(** C1.  RequestMachine at a location whose listing holds an AVAILABLE
    machine.  With any collaborators whose calls are served: the machine
    taken is the first AVAILABLE one of the listing, in the order the
    table returned; its status is updated to AWAITING_DROPOFF, then its job
    id to the requested one; the re-read record is put in the cache under the
    machine's id and returned with OK.  With the table and cache in memory,
    ids being keys and the table up: the returned record is that first
    machine with status AWAITING_DROPOFF and the requested job id, it is
    the row of the table, and the cache maps the machine's id to it. *)
Theorem requestMachine_reserves_first_available :
  (∀ W (this : ApiHandler W) req (s : Session W) before a after u w1 w2 w3 w4 w5,
     listMachinesAtLocation (db this) (Model.locationId req) (world s)
       = Returned (before ++ a :: after) w1 →
     Forall (λ m, status m ≠ AVAILABLE) before →
     status a = AVAILABLE →
     updateMachineStatus (db this) (machineId a) AWAITING_DROPOFF w1 = Returned () w2 →
     updateMachineJobId (db this) (machineId a) (Model.jobId req) w2 = Returned () w3 →
     getMachine (db this) (machineId a) w3 = Returned (Some u) w4 →
     put (cache this) (machineId a) u w4 = Returned () w5 →
     handleRequestMachine this req s =
       Returned {| statusCode := OK; machine := Some u |}
         (mkSession w5
            (trace s ++ [(ListMachinesAtLocation (Model.locationId req),
                          Listing (before ++ a :: after));
                         (UpdateMachineStatus (machineId a) AWAITING_DROPOFF, Void);
                         (UpdateMachineJobId (machineId a) (Model.jobId req), Void);
                         (GetMachine (machineId a), Found (Some u));
                         (CachePut (machineId a) u, Void)])))
  ∧ (∀ req (s : Session Memory.World) before a after,
     Memory.keyed (Memory.rows (world s)) →
     Memory.tableUp (world s) →
     Memory.atLocation (Model.locationId req) (Memory.rows (world s))
       = before ++ a :: after →
     Forall (λ m, status m ≠ AVAILABLE) before →
     status a = AVAILABLE →
     ∃ u s',
       handleRequestMachine Memory.apiHandler req s =
         Returned {| statusCode := OK; machine := Some u |} s'
       ∧ u = mkMachine (machineId a) (Schema.locationId a) AWAITING_DROPOFF
               (Some (Model.jobId req))
       ∧ Memory.row (machineId a) (Memory.rows (world s')) = Some u
       ∧ Memory.entries (world s') !! machineId a = Some u
       ∧ get (cache Memory.apiHandler) (machineId a) (world s')
           = Returned (Some u) (world s')).
Proof.
  assert (∀ before a after,
            Forall (λ m, status m ≠ AVAILABLE) before → status a = AVAILABLE →
            find (λ m, bool_decide (status m = AVAILABLE)) (before ++ a :: after)
              = Some a) as Hfirst.
  { intros before a after Hb Ha. apply find_first.
    - eapply Forall_impl; [exact Hb|]. intros m Hm.
      by apply bool_decide_eq_false_2.
    - by apply bool_decide_eq_true_2. }
  split.
  - intros W this req s before a after u w1 w2 w3 w4 w5 Hl Hb Ha H1 H2 H3 H4.
    eapply request_reserves_run; eauto.
  - intros req s before a after Hkey Hup Hl Hb Ha.
    pose proof (Hfirst before a after Hb Ha) as Hfind. rewrite <- Hl in Hfind.
    destruct (first_of_listing _ _ _ _ Hfind) as [Hin _].
    pose proof (row_of_member _ _ Hkey Hin) as Hrow.
    set (t := Memory.rows (world s)) in *.
    destruct (tableCall_up (Memory.atLocation (Model.locationId req)) (λ t, t)
                (world s) Hup) as [H0 Hup1].
    set (w1 := Memory.served (λ t, t) (world s)) in *.
    destruct (tableCall_up (λ _, ())
                (Memory.alterRow (machineId a) (withStatus AWAITING_DROPOFF)) w1 Hup1)
      as [H1 Hup2].
    set (w2 := Memory.served _ w1) in *.
    destruct (tableCall_up (λ _, ())
                (Memory.alterRow (machineId a) (withJobId (Model.jobId req))) w2 Hup2)
      as [H2 Hup3].
    set (w3 := Memory.served _ w2) in *.
    destruct (tableCall_up (Memory.row (machineId a)) (λ t, t) w3 Hup3) as [H3 _].
    set (u := withJobId (Model.jobId req) (withStatus AWAITING_DROPOFF a)).
    assert (Memory.row (machineId a) (Memory.rows w3) = Some u) as Hrow3.
    { simpl. rewrite row_withJobId, row_withStatus. fold t. rewrite Hrow. reflexivity. }
    exists u. eexists. split; [|split; [reflexivity|]].
    + eapply (request_reserves_run Memory.apiHandler req s _ a u w1 w2 w3).
      * exact H0.
      * exact Hfind.
      * exact H1.
      * exact H2.
      * rewrite <- Hrow3. exact H3.
      * reflexivity.
    + simpl. split; [exact Hrow3|]. rewrite lookup_insert_eq. done.
Qed.

(** ** The status machine in memory *)

Section Statuses.

Import Memory.
Implicit Types (w : World) (t : list MachineStateDocument) (id : string).
Implicit Types (op : Operation.t).

#[local] Arguments outageDue : simpl never.
#[local] Arguments deviceTurn : simpl never.
#[local] Arguments row : simpl never.
#[local] Arguments alterRow : simpl never.
#[local] Arguments atLocation : simpl never.

Lemma returns_exists {S A} (out : Outcome S A) (post : A → S → Prop) :
  returns out post → ∃ a s, out = Returned a s ∧ post a s.
Proof. destruct out; simpl; [eauto|done]. Qed.




Lemma withStatus_fixed st (m : MachineStateDocument) :
  status m = st → withStatus st m = m.
Proof. intros <-. apply withStatus_same. Qed.

End Statuses.

(** Split a run in memory at the next thing the world decides. *)
Ltac branch :=
  match goal with
  | |- context [Memory.outageDue ?w] => destruct (Memory.outageDue w) eqn:?
  | |- context [match Memory.deviceTurn ?w with _ => _ end] =>
      destruct (Memory.deviceTurn w) eqn:?
  | |- context [match Memory.row ?i ?t with _ => _ end] =>
      destruct (Memory.row i t) eqn:?
  | |- context [match find ?p ?l with _ => _ end] => destruct (find p l) eqn:?
  | |- context [match ?m !! ?i with _ => _ end] => destruct (m !! i) eqn:?
  | |- context [bool_decide ?P] => destruct (bool_decide P) eqn:?
  end; simpl.

Ltac props :=
  repeat match goal with
  | H : bool_decide _ = true |- _ => apply bool_decide_eq_true in H
  | H : bool_decide _ = false |- _ => apply bool_decide_eq_false in H
  end.

(** A write of the status a row already has changes nothing. *)
Ltac idle_writes :=
  repeat match goal with
  | Hr : Memory.row ?i ?T = Some ?r, Hs : status ?r = ?st
    |- context [Memory.alterRow ?i (withStatus ?st) ?T] =>
      rewrite (alterRow_fixed i (withStatus st) T r Hr (withStatus_fixed st r Hs))
  end.

Section StatusesOfOperations.

Import Memory.

#[local] Arguments outageDue : simpl never.
#[local] Arguments deviceTurn : simpl never.
#[local] Arguments row : simpl never.
#[local] Arguments alterRow : simpl never.
#[local] Arguments atLocation : simpl never.




End StatusesOfOperations.


(** ** What the cache holds *)

(** The entry under [id] after an operation: the one of before, or the
    record last observed. *)
Ltac entry_of_put :=
  match goal with
  | Hc : <[?i := ?x]> _ !! ?j = Some _ |- _ =>
      destruct (decide (i = j)) as [<-|Hne];
      [rewrite lookup_insert_eq in Hc; injection Hc as <-; right;
       unfold lastObserved; simpl; rewrite ?String.eqb_refl; simpl
      |rewrite lookup_insert_ne in Hc by exact Hne; by left]
  end.

Section Entries.

Import Memory.

#[local] Arguments outageDue : simpl never.
#[local] Arguments deviceTurn : simpl never.
#[local] Arguments row : simpl never.
#[local] Arguments alterRow : simpl never.
#[local] Arguments atLocation : simpl never.

Lemma row_machineId id (t : list MachineStateDocument) m :
  row id t = Some m → machineId m = id.
Proof.
  unfold row. intros H. apply find_some in H as [_ H]. by apply String.eqb_eq.
Qed.

Lemma get_entries (request : GetMachineRequestModel) w :
  returns (handleGetMachine apiHandler request (fresh w))
    (observedEntries (Operation.GetMachine request) w).
Proof.
  expose. unfold tableCall. simpl.
  repeat branch;
    (split; [intros id' c' Hc; simpl in Hc|split; [intros [Hc|Hc]|simpl; done]]).
  all: try discriminate Hc.
  all: try (first [by left|entry_of_put]; reflexivity).
  - eexists. split; [reflexivity|]. split; [symmetry; by apply insert_id|].
    right. by eexists.
  - eexists. split; [reflexivity|]. split; [reflexivity|]. left.
    unfold lastObserved. simpl. by rewrite String.eqb_refl.
Qed.

Lemma request_entries (request : RequestMachineRequestModel) w :
  returns (handleRequestMachine apiHandler request (fresh w))
    (observedEntries (Operation.RequestMachine request) w).
Proof.
  expose. unfold tableCall. simpl.
  repeat branch;
    (split; [intros id' c' Hc; simpl in Hc|split; [intros [Hc|Hc]|simpl; done]]).
  all: try discriminate Hc.
  all: try (first [by left|entry_of_put]; reflexivity).
  match goal with
  | H : row ?i _ = Some ?u |- _ => pose proof (row_machineId _ _ _ H) as Hid
  end.
  eexists. split; [reflexivity|]. simpl. rewrite Hid.
  split; [reflexivity|]. left.
  unfold lastObserved. simpl. by rewrite !String.eqb_refl.
Qed.

Lemma start_entries (request : StartMachineRequestModel) w :
  returns (handleStartMachine apiHandler request (fresh w))
    (observedEntries (Operation.StartMachine request) w).
Proof.
  expose. unfold tableCall. simpl.
  repeat branch; props;
    (split; [intros id' c' Hc; simpl in Hc|split; [intros [Hc|Hc]|simpl; done]]).
  all: try discriminate Hc.
  all: try (first [by left|entry_of_put];
            first [reflexivity|by rewrite withStatus_fixed]).
  all: eexists; (split; [reflexivity|]); (split; [reflexivity|]); left;
    unfold lastObserved; simpl; rewrite ?String.eqb_refl; simpl;
    first [reflexivity|by rewrite withStatus_fixed].
Qed.

End Entries.

(** C4, amended.  Whatever the operation, the outages of the table and the
    behaviour of the device, the operation returns, and:

    - every entry of the cache afterwards is either the entry that was there
      before the operation or the most recent record of that machine that
      the operation has read from the table or written to it;
    - after OK or HARDWARE_ERROR the cache is the one of before with the
      record returned put under the machine worked on, and that record is
      the most recent one the operation has read from the table or written to
      it for that machine; the one exception is a GetMachine answered from
      the cache, which reads nothing from the table and returns the entry
      that was there, leaving it;
    - after NOT_FOUND, BAD_REQUEST or INTERNAL_SERVER_ERROR the cache is as it
      was, whatever the operation has read or written. *)
Theorem cache_entries_are_observed (op : Operation.t) (w : Memory.World) :
  ∃ response s',
    perform Memory.apiHandler op (Memory.fresh w) = Returned response s'
    ∧ (∀ id c, Memory.entries (world s') !! id = Some c →
               Memory.entries w !! id = Some c
               ∨ lastObserved id (trace s') = Some c)
    ∧ (statusCode response = OK ∨ statusCode response = HARDWARE_ERROR →
       ∃ u,
         machine response = Some u
         ∧ Memory.entries (world s') = <[operated op u := u]> (Memory.entries w)
         ∧ (lastObserved (operated op u) (trace s') = Some u
            ∨ (∃ request,
                 op = Operation.GetMachine request
                 ∧ Memory.entries w !! Model.machineId request = Some u
                 ∧ trace s' = [(CacheGet (Model.machineId request), Found (Some u))])))
    ∧ (statusCode response ≠ OK → statusCode response ≠ HARDWARE_ERROR →
       Memory.entries (world s') = Memory.entries w).
Proof.
  apply returns_exists. destruct op as [request|request|request]; simpl.
  - apply request_entries.
  - apply get_entries.
  - apply start_entries.
Qed.

(** C4 as stated fails, with an outage and without one.  Both runs rest on
    the cache holding copies of the records, as section 3 of the spec has it:
    an entry does not follow the writes made to the table after it was put.

    With an outage: the washer is reserved for J1, which puts it in the
    cache in AWAITING_DROPOFF.  It is then started: the cycle starts, the
    update to RUNNING is served, the re-read raises, and the re-read of the
    catch block is served and shows RUNNING; the result is
    INTERNAL_SERVER_ERROR.  The cache still holds the record in
    AWAITING_DROPOFF, while the last record read from the table, which is the
    row of the table, is in RUNNING.

    Without one: the cache holds an old record of the dryer.  StartMachine
    reads the dryer from the table in RUNNING, answers BAD_REQUEST, and leaves
    the cache with the old record.

    After OK as well, for the machines the operation has not worked on: with
    the same old record of the dryer in the cache, RequestMachine at L1 lists
    the dryer in RUNNING beside the washer, reserves the washer and answers
    OK.  The entry of the washer is the record last read, the entry of the
    dryer is still the old one. *)
Lemma cache_entries_are_observed_counterexample :
  (∃ s1 s2,
     handleRequestMachine Memory.apiHandler (Laundromat.post "/machine/request")
       (Memory.fresh Laundromat.flaky)
     = Returned {| statusCode := OK; machine := Some Laundromat.reserved |} s1
     ∧ handleStartMachine Memory.apiHandler
         (Model.mkWithMachineId (Laundromat.post "/machine/m1/start") "m1") s1
       = Returned {| statusCode := INTERNAL_SERVER_ERROR; machine := None |} s2
     ∧ since s1 s2 = [(GetMachine "m1", Found (Some Laundromat.reserved));
                      (StartCycle "m1", Void);
                      (UpdateMachineStatus "m1" RUNNING, Void);
                      (GetMachine "m1", Raised);
                      (GetMachine "m1", Found (Some Laundromat.spinning))]
     ∧ Memory.entries (world s2) !! "m1" = Some Laundromat.reserved
     ∧ lastObserved "m1" (trace s2) = Some Laundromat.spinning
     ∧ Memory.row "m1" (Memory.rows (world s2)) = Some Laundromat.spinning
     ∧ Laundromat.reserved ≠ Laundromat.spinning)
  ∧ (∃ s',
     handleStartMachine Memory.apiHandler
       (Model.mkWithMachineId (Laundromat.post "/machine/m2/start") "m2")
       (Memory.fresh Laundromat.stale)
     = Returned {| statusCode := BAD_REQUEST; machine := Some Laundromat.dryer |} s'
     ∧ trace s' = [(GetMachine "m2", Found (Some Laundromat.dryer))]
     ∧ Memory.entries (world s') !! "m2" = Some Laundromat.dryerBefore
     ∧ lastObserved "m2" (trace s') = Some Laundromat.dryer
     ∧ Laundromat.dryerBefore ≠ Laundromat.dryer)
  ∧ (∃ s',
     handleRequestMachine Memory.apiHandler (Laundromat.post "/machine/request")
       (Memory.fresh Laundromat.stale)
     = Returned {| statusCode := OK; machine := Some Laundromat.reserved |} s'
     ∧ trace s' = [(ListMachinesAtLocation "L1",
                    Listing [Laundromat.dryer; Laundromat.washer]);
                   (UpdateMachineStatus "m1" AWAITING_DROPOFF, Void);
                   (UpdateMachineJobId "m1" "J1", Void);
                   (GetMachine "m1", Found (Some Laundromat.reserved));
                   (CachePut "m1" Laundromat.reserved, Void)]
     ∧ Memory.entries (world s') !! "m1" = Some Laundromat.reserved
     ∧ lastObserved "m1" (trace s') = Some Laundromat.reserved
     ∧ Memory.entries (world s') !! "m2" = Some Laundromat.dryerBefore
     ∧ lastObserved "m2" (trace s') = Some Laundromat.dryer
     ∧ Laundromat.dryerBefore ≠ Laundromat.dryer).
Proof.
  split; [|split].
  - eexists _, _.
    split; [vm_compute; reflexivity|].
    split; [vm_compute; reflexivity|].
    vm_compute. repeat split. discriminate.
  - eexists. split; [vm_compute; reflexivity|].
    vm_compute. repeat split. discriminate.
  - eexists. split; [vm_compute; reflexivity|].
    vm_compute. repeat split. discriminate.
Qed.

(** C1 on the laundromat: at L1 the dryer is RUNNING and the washer, listed
    after it, is the first AVAILABLE machine. *)
Lemma requestMachine_reserves_first_available_witness :
  ∃ u s',
    handleRequestMachine Memory.apiHandler (Laundromat.post "/machine/request")
      (Memory.fresh Laundromat.quiet)
    = Returned {| statusCode := OK; machine := Some u |} s'
    ∧ u = mkMachine "m1" "L1" AWAITING_DROPOFF (Some "J1")
    ∧ Memory.row "m1" (Memory.rows (world s')) = Some u
    ∧ Memory.entries (world s') !! "m1" = Some u
    ∧ get (cache Memory.apiHandler) "m1" (world s') = Returned (Some u) (world s').
Proof.
  apply (proj2 requestMachine_reserves_first_available
           (Laundromat.post "/machine/request") (Memory.fresh Laundromat.quiet)
           [Laundromat.dryer] Laundromat.washer []).
  - by compute_done.
  - apply Forall_nil_2.
  - reflexivity.
  - repeat constructor. discriminate.
  - reflexivity.
Defined.


(** * Further properties of the handler *)

(** Split a run at every reply of a collaborator and every test of the
    handler, in the order of the calls. *)
Ltac fork :=
  repeat (match goal with
  | |- context [validateToken (idp ?t) ?k ?w] =>
      destruct (validateToken (idp t) k w) as [[|] ?|? ?] eqn:?
  | |- context [listMachinesAtLocation (db ?t) ?l ?w] =>
      destruct (listMachinesAtLocation (db t) l w) as [? ?|? ?] eqn:?
  | |- context [getMachine (db ?t) ?i ?w] =>
      destruct (getMachine (db t) i w) as [[?|] ?|? ?] eqn:?
  | |- context [updateMachineStatus (db ?t) ?i ?st ?w] =>
      destruct (updateMachineStatus (db t) i st w) as [[] ?|? ?] eqn:?
  | |- context [updateMachineJobId (db ?t) ?i ?j ?w] =>
      destruct (updateMachineJobId (db t) i j w) as [[] ?|? ?] eqn:?
  | |- context [get (cache ?t) ?i ?w] =>
      destruct (get (cache t) i w) as [[?|] ?|? ?] eqn:?
  | |- context [put (cache ?t) ?i ?d ?w] =>
      destruct (put (cache t) i d w) as [[] ?|? ?] eqn:?
  | |- context [startCycle (smartMachine ?t) ?i ?w] =>
      destruct (startCycle (smartMachine t) i w) as [[] ?|? ?] eqn:?
  | |- context [match find ?p ?l with _ => _ end] => destruct (find p l) eqn:?
  | |- context [bool_decide ?P] => destruct (bool_decide P) eqn:?
  end; simpl).

(** The calls of a run that returned, read off the two traces. *)
Ltac calls_of_run H :=
  injection H as ? ? H; subst;
  rewrite <- ?app_assoc in H; apply app_inv_head in H; simpl in H; subst.

(** Every run of an operation, with its response and its calls. *)
Ltac every_run :=
  unfold runs;
  match goal with op : Operation.t |- _ => destruct op as [?request|?request|?request] end;
  simpl; expose; fork;
  let H := fresh "Hrun" in intros H; calls_of_run H; simpl.

Section Runs.

Context {W : Type}.
Variable this : ApiHandler W.

Implicit Types (s : Session W) (op : Operation.t) (evs : list Event).
Implicit Types (response : MachineResponseModel).

Lemma perform_returns op s :
  ∃ response evs w',
    perform this op s = Returned response (mkSession w' (trace s ++ evs)).
Proof.
  destruct op as [request|request|request]; simpl; expose; fork;
    eexists _, _, _; rewrite <- ?app_assoc; reflexivity.
Qed.

(** X1.  No operation throws, whatever the collaborators do: every
    exception of a collaborator is caught inside the operation, which
    returns a response; the calls recorded before are kept and the new ones
    come after them. *)
Theorem operations_always_return op s :
  ∃ response evs w', runs this op s response evs w'.
Proof.
  unfold runs. destruct op as [request|request|request]; simpl; expose.
  - fork; eexists _, _, _; rewrite <- ?app_assoc; reflexivity.
  - fork; eexists _, _, _; rewrite <- ?app_assoc; reflexivity.
  - fork; eexists _, _, _; rewrite <- ?app_assoc; reflexivity.
Qed.

(** X2.  A response carries a record exactly when its code is OK,
    BAD_REQUEST or HARDWARE_ERROR, and its code is one the operation can
    answer: NOT_FOUND, OK or INTERNAL_SERVER_ERROR for RequestMachine and
    GetMachine, these and BAD_REQUEST and HARDWARE_ERROR for StartMachine;
    never UNAUTHORIZED. *)
Theorem responses_are_well_formed op s response evs w' :
  runs this op s response evs w' →
  (is_Some (machine response) ↔ carriesRecord (statusCode response) = true)
  ∧ statusCode response ∈ codesOf op.
Proof.
  every_run.
  all: split;
    [split; first [by intros _; eexists | by intros [? ?] | done]
    |repeat first [apply list_elem_of_here | apply list_elem_of_further]].
Qed.

(** X3.  When a call of a collaborator raises during an operation, the
    response is INTERNAL_SERVER_ERROR, or HARDWARE_ERROR for StartMachine;
    and HARDWARE_ERROR is answered only after a call has raised. *)
Theorem raised_calls_and_codes op s response evs w' :
  runs this op s response evs w' →
  (existsb raised evs = true →
   statusCode response = INTERNAL_SERVER_ERROR
   ∨ (statusCode response = HARDWARE_ERROR
      ∧ ∃ request, op = Operation.StartMachine request))
  ∧ (statusCode response = HARDWARE_ERROR → existsb raised evs = true).
Proof.
  every_run.
  all: split; [intros Hr; first [discriminate Hr | by left | right; eauto]
              |intros Hc; first [discriminate Hc | reflexivity]].
Qed.

(** X4.  A start command goes to the device only in StartMachine, at most
    once, for the machine of the request, and only as the second call, after
    a read of that machine that showed it in AWAITING_DROPOFF. *)
Theorem start_command_discipline op s response evs w' :
  runs this op s response evs w' →
  existsb isStartCycle evs = true →
  ∃ request m r rest,
    op = Operation.StartMachine request
    ∧ evs = (GetMachine (Model.machineId request), Found (Some m))
            :: (StartCycle (Model.machineId request), r) :: rest
    ∧ status m = AWAITING_DROPOFF
    ∧ existsb isStartCycle rest = false.
Proof.
  every_run.
  all: intros Hd; try discriminate Hd.
  all: props; eexists _, _, _, _; split; [reflexivity|];
    split; [reflexivity|]; split; [assumption|reflexivity].
Qed.

(** X5.  The status RUNNING is written to the table only by StartMachine
    and only once the device has accepted the start command: the write is
    the third call, after the read and the served start command. *)
Theorem running_is_written_after_the_start op s response evs w' :
  runs this op s response evs w' →
  existsb (writesStatus RUNNING) evs = true →
  ∃ request m r rest,
    op = Operation.StartMachine request
    ∧ evs = (GetMachine (Model.machineId request), Found (Some m))
            :: (StartCycle (Model.machineId request), Void)
            :: (UpdateMachineStatus (Model.machineId request) RUNNING, r) :: rest
    ∧ existsb (writesStatus RUNNING) rest = false.
Proof.
  every_run.
  all: intros Hd; try discriminate Hd.
  all: eexists _, _, _, _; split; [reflexivity|]; split; reflexivity.
Qed.

(** X6.  An operation calls only its own methods, and all its calls that
    are about a machine are about one and the same: the machine of the
    request for GetMachine and StartMachine, the machine taken for
    RequestMachine.  No operation validates a token. *)
Theorem calls_concern_one_machine op s response evs w' :
  runs this op s response evs w' →
  ∃ i,
    Forall (λ ev, mayCall op ev.1 = true
                  ∧ (machineOf ev.1 = None ∨ machineOf ev.1 = Some i)) evs
    ∧ match op with
      | Operation.RequestMachine _ => True
      | Operation.GetMachine request | Operation.StartMachine request =>
          i = Model.machineId request
      end.
Proof.
  unfold runs. destruct op as [request|request|request]; simpl; expose.
  - destruct (listMachinesAtLocation _ _ _) as [ms ?|? ?] eqn:?; simpl;
      [destruct (find _ ms) as [a|] eqn:?; simpl|].
    + fork; intros Hrun; calls_of_run Hrun;
        (exists (machineId a); split; [|exact I]);
        repeat (apply Forall_cons_2; [split; [reflexivity|by auto]|]);
        apply Forall_nil_2.
    + intros Hrun; calls_of_run Hrun. exists "". split; [|exact I].
      repeat (apply Forall_cons_2; [split; [reflexivity|by auto]|]).
      apply Forall_nil_2.
    + intros Hrun; calls_of_run Hrun. exists "". split; [|exact I].
      repeat (apply Forall_cons_2; [split; [reflexivity|by auto]|]).
      apply Forall_nil_2.
  - fork; intros Hrun; calls_of_run Hrun;
      (exists (Model.machineId request); split; [|reflexivity]);
      repeat (apply Forall_cons_2; [split; [reflexivity|by auto]|]);
      apply Forall_nil_2.
  - fork; intros Hrun; calls_of_run Hrun;
      (exists (Model.machineId request); split; [|reflexivity]);
      repeat (apply Forall_cons_2; [split; [reflexivity|by auto]|]);
      apply Forall_nil_2.
Qed.

(** X7.  At most one put in the cache is served in an operation, and it
    is the last call: the record put is the one returned to the caller, with
    OK or HARDWARE_ERROR.  (StartMachine can attempt a second put, in its
    catch block, when the first one raised.) *)
Theorem served_put_is_last op s response evs w' :
  runs this op s response evs w' →
  existsb isServedPut evs = true →
  ∃ i doc,
    last evs = Some (CachePut i doc, Void)
    ∧ existsb isServedPut (removelast evs) = false
    ∧ machine response = Some doc
    ∧ (statusCode response = OK ∨ statusCode response = HARDWARE_ERROR).
Proof.
  every_run.
  all: intros Hd; try discriminate Hd.
  all: eexists _, _; split; [reflexivity|]; split; [reflexivity|];
    split; [reflexivity|eauto].
Qed.

(** X8.  NOT_FOUND and BAD_REQUEST are answered only by runs in which no
    call raised and nothing was changed: no field of a row written, nothing
    put in the cache, no start command sent. *)
Theorem refusals_change_nothing op s response evs w' :
  runs this op s response evs w' →
  statusCode response = NOT_FOUND ∨ statusCode response = BAD_REQUEST →
  existsb raised evs = false ∧ existsb changes evs = false.
Proof.
  every_run.
  all: intros [Hc|Hc]; try discriminate Hc.
  all: split; reflexivity.
Qed.

(** X9.  The record of a HARDWARE_ERROR response is in ERROR: it is the
    record of the last read, after which the status ERROR was written and
    the record put in the cache.  The record of a BAD_REQUEST response is in
    a status other than AWAITING_DROPOFF. *)
Theorem records_of_error_responses op s response evs w' :
  runs this op s response evs w' →
  (statusCode response = HARDWARE_ERROR →
   ∃ request m,
     op = Operation.StartMachine request
     ∧ machine response = Some m ∧ status m = ERROR
     ∧ drop (length evs - 3) evs
       = [(GetMachine (Model.machineId request), Found (Some m));
          (UpdateMachineStatus (Model.machineId request) ERROR, Void);
          (CachePut (Model.machineId request) m, Void)])
  ∧ (statusCode response = BAD_REQUEST →
     ∃ m, machine response = Some m ∧ status m ≠ AWAITING_DROPOFF).
Proof.
  every_run.
  all: split; intros Hc; try discriminate Hc.
  all: props; eauto 10.
Qed.

(** X10.  An operation makes at least one call and at most five
    (RequestMachine), three (GetMachine) or eight (StartMachine: five in its
    body when the put at its end raises, then three in its catch block);
    nothing loops. *)
Theorem calls_are_bounded op s response evs w' :
  runs this op s response evs w' →
  (1 ≤ length evs ≤ mostCalls op)%nat.
Proof. every_run. all: lia. Qed.

End Runs.

(** ** The router *)

Lemma stripPrefix_spec (p s r : string) :
  stripPrefix p s = Some r ↔ s = p +:+ r.
Proof.
  revert s. induction p as [|a p IH]; intros s; simpl.
  - split; [by intros [= ->]|by intros ->].
  - destruct s as [|b s]; [split; [done|intros [=]]|].
    destruct (Ascii.eqb a b) eqn:E.
    + apply Ascii.eqb_eq in E. subst b. rewrite IH.
      split; [by intros ->|by intros [= ->]].
    + apply Ascii.eqb_neq in E. split; [done|]. intros [= <- _]. done.
Qed.

Lemma spanId_sound (s i r : string) :
  spanId s = (i, r) →
  s = i +:+ r ∧ allIdChars i = true ∧ startsOutsideIds r = true.
Proof.
  revert i r. induction s as [|c s IH]; intros i r; simpl.
  - by intros [= <- <-].
  - destruct (isIdChar c) eqn:E.
    + destruct (spanId s) as [i' r'] eqn:Es. intros [= <- <-].
      destruct (IH _ _ eq_refl) as (-> & Hi & Hr). simpl. by rewrite E, Hi.
    + intros [= <- <-]. simpl. by rewrite E.
Qed.

Lemma spanId_complete (i r : string) :
  allIdChars i = true → startsOutsideIds r = true → spanId (i +:+ r) = (i, r).
Proof.
  induction i as [|c i IH]; simpl; intros Hi Hr.
  - destruct r as [|c r]; [done|]. simpl in *.
    by destruct (isIdChar c).
  - apply andb_true_iff in Hi as [-> Hi]. by rewrite IH.
Qed.

Lemma path_pattern_sound (suffix path id : string) :
  matchMachinePath suffix path = Some id → machinePath id suffix path.
Proof.
  unfold matchMachinePath, machinePath.
  destruct (stripPrefix "/machine/" path) as [rest|] eqn:Ep; [|done].
  apply stripPrefix_spec in Ep. destruct (spanId rest) as [i r] eqn:Es.
  apply spanId_sound in Es as (-> & Hi & _).
  destruct (String.eqb i "") eqn:Ei; [done|]. simpl.
  destruct (String.eqb r suffix) eqn:Er; [|done]. intros [= <-].
  apply String.eqb_eq in Er. apply String.eqb_neq in Ei. by subst.
Qed.

Lemma path_pattern_complete (suffix path id : string) :
  startsOutsideIds suffix = true →
  machinePath id suffix path → matchMachinePath suffix path = Some id.
Proof.
  unfold matchMachinePath, machinePath. intros Hsuffix (-> & Hne & Hi).
  assert (stripPrefix "/machine/" ("/machine/" +:+ id +:+ suffix)
          = Some (id +:+ suffix)) as -> by by apply stripPrefix_spec.
  rewrite spanId_complete by done.
  apply String.eqb_neq in Hne. rewrite Hne, String.eqb_refl. done.
Qed.

Lemma path_pattern (suffix path id : string) :
  startsOutsideIds suffix = true →
  matchMachinePath suffix path = Some id ↔ machinePath id suffix path.
Proof.
  intros Hsuffix. split; [apply path_pattern_sound|by apply path_pattern_complete].
Qed.

(** X11.  The router's patterns match whole paths: a path matches
    [/machine/<id>], or [/machine/<id>/start], with the id captured, exactly
    when it is that prefix, a non-empty id made of letters, digits and
    hyphens, and that suffix, with nothing before or after. *)
Theorem matchMachinePath_spec (path id : string) :
  (matchMachinePath "" path = Some id ↔ machinePath id "" path)
  ∧ (matchMachinePath "/start" path = Some id ↔ machinePath id "/start" path).
Proof.
  split; split.
  - apply path_pattern_sound.
  - by apply path_pattern_complete.
  - apply path_pattern_sound.
  - by apply path_pattern_complete.
Qed.

Section Router.

Context {W : Type}.
Variable this : ApiHandler W.

Implicit Types (s : Session W) (req : RequestModel) (id : string).

(** X12.  Once the token of a request is accepted, the router does
    exactly this: POST on [/machine/request] is RequestMachine; GET on the
    path of a machine is GetMachine of the captured id; POST on the path of
    a start is StartMachine of the captured id; each operation starts right
    after the validation.  Every other request (another method, another
    path, or the method of one route with the path of another) is answered
    INTERNAL_SERVER_ERROR, without any further call. *)
Theorem handle_routes req s w1 :
  validateToken (idp this) (Model.token req) (world s) = Returned true w1 →
  (Model.method req = "POST" → Model.path req = "/machine/request" →
   handle this req s
   = handleRequestMachine this req (admitted s (Model.token req) w1))
  ∧ (∀ id, Model.method req = "GET" → machinePath id "" (Model.path req) →
     handle this req s
     = handleGetMachine this (Model.mkWithMachineId req id)
         (admitted s (Model.token req) w1))
  ∧ (∀ id, Model.method req = "POST" → machinePath id "/start" (Model.path req) →
     handle this req s
     = handleStartMachine this (Model.mkWithMachineId req id)
         (admitted s (Model.token req) w1))
  ∧ (¬ (Model.method req = "POST" ∧ Model.path req = "/machine/request") →
     ¬ (Model.method req = "GET" ∧ ∃ id, machinePath id "" (Model.path req)) →
     ¬ (Model.method req = "POST" ∧ ∃ id, machinePath id "/start" (Model.path req)) →
     handle this req s
     = Returned {| statusCode := INTERNAL_SERVER_ERROR; machine := None |}
         (admitted s (Model.token req) w1)).
Proof.
  intros Hv.
  assert (∀ k : M W MachineResponseModel,
            (checkToken this (Model.token req) ;; k) s
            = k (admitted s (Model.token req) w1)) as Hadmit.
  { intros k. unfold checkToken, idp_validateToken, invoke, mbind, M_bind.
    simpl. by rewrite Hv. }
  unfold handle. rewrite Hadmit. clear Hadmit.
  split; [|split; [|split]].
  - intros -> ->. reflexivity.
  - intros id -> Hp. simpl.
    apply path_pattern in Hp as ->; done.
  - intros id -> Hp. simpl.
    assert (String.eqb (Model.path req) "/machine/request" = false) as ->.
    { apply String.eqb_neq. destruct Hp as (-> & _ & _).
      intros Heq. cbv in Heq.
      destruct id as [|c1 [|c2 [|c3 [|c4 [|c5 [|c6 [|c7 [|c8 id]]]]]]]];
        cbv in Heq; simplify_eq. }
    apply path_pattern in Hp as ->; done.
  - intros Hrequest Hget Hstart.
    destruct (String.eqb (Model.method req) "POST") eqn:Epost;
      destruct (String.eqb (Model.method req) "GET") eqn:Eget;
      destruct (String.eqb (Model.path req) "/machine/request") eqn:Epath;
      simpl;
      rewrite ?String.eqb_eq in *.
    all: try (exfalso; apply Hrequest; done).
    all: destruct (matchMachinePath "" (Model.path req)) as [i|] eqn:Em;
      try (apply path_pattern in Em; [|done];
           exfalso; apply Hget; eauto; fail).
    all: destruct (matchMachinePath "/start" (Model.path req)) as [i'|] eqn:Em';
      try (apply path_pattern in Em'; [|done];
           exfalso; apply Hstart; eauto; fail).
    all: reflexivity.
Qed.

(** X13.  An exception leaves [handle] only from the token check, before
    any operation runs: either the identity provider rejected the token, and
    the exception is the UNAUTHORIZED error, or the identity provider itself
    raised, and its exception goes through unchanged.  In both cases the
    validation is the only call made.  With an accepted token [handle]
    returns a response. *)
Theorem handle_throws_only_at_the_token_check req s :
  match validateToken (idp this) (Model.token req) (world s) with
  | Returned true w1 =>
      ∃ response evs w',
        handle this req s = Returned response
          (mkSession w' (trace s ++ (ValidateToken (Model.token req), Flag true) :: evs))
  | Returned false w1 =>
      handle this req s = Threw (ErrorJSON UNAUTHORIZED "Invalid token")
        (mkSession w1 (trace s ++ [(ValidateToken (Model.token req), Flag false)]))
  | Threw e w1 =>
      handle this req s = Threw e
        (mkSession w1 (trace s ++ [(ValidateToken (Model.token req), Raised)]))
  end.
Proof.
  destruct (validateToken _ _ _) as [[|] w1|e w1] eqn:Hv.
  - assert (∀ op, ∃ response evs w',
              perform this op (admitted s (Model.token req) w1)
              = Returned response
                  (mkSession w' (trace s ++ (ValidateToken (Model.token req), Flag true)
                                         :: evs))) as Hop.
    { intros op.
      destruct (perform_returns this op (admitted s (Model.token req) w1))
        as (response & evs & w' & Hrun).
      exists response, evs, w'. rewrite Hrun. simpl.
      by rewrite <- app_assoc. }
    unfold handle, checkToken, idp_validateToken, invoke, mbind, M_bind.
    simpl. rewrite Hv. simpl. fold (admitted s (Model.token req) w1).
    destruct (_ && _).
    + apply (Hop (Operation.RequestMachine req)).
    + destruct (String.eqb (Model.method req) "GET"),
        (matchMachinePath "" (Model.path req)) as [i|];
        try apply (Hop (Operation.GetMachine (Model.mkWithMachineId req i)));
        destruct (String.eqb (Model.method req) "POST"),
          (matchMachinePath "/start" (Model.path req)) as [i'|];
        try apply (Hop (Operation.StartMachine (Model.mkWithMachineId req i')));
        by exists {| statusCode := INTERNAL_SERVER_ERROR; machine := None |}, [], w1.
  - expose. by rewrite Hv.
  - expose. by rewrite Hv.
Qed.

End Router.

(** ** The table and the cache in memory, across an operation *)

Section Frames.

Import Memory.

#[local] Arguments outageDue : simpl never.
#[local] Arguments deviceTurn : simpl never.
#[local] Arguments row : simpl never.
#[local] Arguments alterRow : simpl never.
#[local] Arguments atLocation : simpl never.

Implicit Types (w : World) (t : list MachineStateDocument) (id : string).

Lemma fields_alterRow {A} (field : MachineStateDocument → A) id f t :
  (∀ m, field (f m) = field m) →
  map field (alterRow id f t) = map field t.
Proof.
  intros Hf. unfold alterRow. induction t as [|m t IH]; simpl; [done|].
  destruct (String.eqb (machineId m) id); simpl; [by rewrite Hf|by rewrite IH].
Qed.

Lemma related_alterRow (R : relation MachineStateDocument) id f t :
  (∀ m, R m m) → (∀ m, R m (f m)) → Forall2 R t (alterRow id f t).
Proof.
  intros Hrefl Hf. unfold alterRow. induction t as [|m t IH]; simpl; [constructor|].
  destruct (String.eqb (machineId m) id); constructor; auto.
  apply Forall2_same_length_lookup_2; [done|]. intros i x y Hx Hy.
  by simplify_eq.
Qed.

Lemma related_alterRow_twice (R : relation MachineStateDocument) id id' f g t :
  (∀ m, R m m) → (∀ m, R m (f m)) → (∀ m, R m (g m)) → (∀ m, R m (g (f m))) →
  Forall2 R t (alterRow id g (alterRow id' f t)).
Proof.
  intros Hrefl Hf Hg Hgf. induction t as [|m t IH]; [constructor|].
  unfold alterRow at 2. fold alterRow.
  destruct (String.eqb (machineId m) id').
  - unfold alterRow at 1. fold alterRow.
    destruct (String.eqb (machineId (f m)) id); constructor; auto.
    + apply Forall2_same_length_lookup_2; [done|]. intros i x y Hx Hy.
      by simplify_eq.
    + by apply related_alterRow.
  - unfold alterRow at 1. fold alterRow.
    destruct (String.eqb (machineId m) id); constructor; auto.
    by apply related_alterRow.
Qed.

(** X14.  No operation adds, removes or reorders rows, and none changes
    the machine id or the location of a row, whatever the outages and the
    devices.  GetMachine leaves the table as it is.  StartMachine leaves
    every job id as it is; RequestMachine leaves a job id as it is or sets
    it to the job of the request: a job id is never cleared. *)
Theorem rows_keep_their_identity (op : Operation.t) w :
  ∃ response s',
    perform apiHandler op (fresh w) = Returned response s'
    ∧ map machineId (rows (world s')) = map machineId (rows w)
    ∧ map Schema.locationId (rows (world s')) = map Schema.locationId (rows w)
    ∧ match op with
      | Operation.RequestMachine request =>
          Forall2 (λ before after,
                     jobId after = jobId before
                     ∨ jobId after = Some (Model.jobId request))
            (rows w) (rows (world s'))
      | Operation.GetMachine _ => rows (world s') = rows w
      | Operation.StartMachine _ =>
          map jobId (rows (world s')) = map jobId (rows w)
      end.
Proof.
  apply returns_exists. destruct op as [request|request|request]; simpl;
    expose; unfold tableCall; simpl; repeat branch.
  all: rewrite ?(fields_alterRow machineId), ?(fields_alterRow Schema.locationId) by done.
  all: split; [reflexivity|]; split; [reflexivity|].
  all: rewrite ?(fields_alterRow jobId) by done; try reflexivity.
  all: first
    [ apply related_alterRow_twice; simpl; auto
    | apply related_alterRow; simpl; auto
    | apply Forall2_same_length_lookup_2; [done|];
      intros i x y Hx Hy; left; congruence ].
Qed.

Lemma row_elsewhere id id' f t :
  (∀ m, machineId (f m) = machineId m) → id' ≠ id →
  row id' (alterRow id f t) = row id' t.
Proof.
  intros Hf Hne. rewrite row_alterRow by done.
  apply String.eqb_neq in Hne. by rewrite Hne.
Qed.

Lemma location_of_listed l t a : In a (atLocation l t) → Schema.locationId a = l.
Proof.
  unfold atLocation. intros H. apply filter_In in H as [_ H].
  by apply String.eqb_eq.
Qed.

Lemma request_ok_row (request : RequestMachineRequestModel) (s : Session World) u s' :
  keyed (rows (world s)) →
  handleRequestMachine apiHandler request s
    = Returned {| statusCode := OK; machine := Some u |} s' →
  ∃ a,
    row (machineId u) (rows (world s)) = Some a
    ∧ status a = AVAILABLE
    ∧ Schema.locationId a = Model.locationId request
    ∧ u = mkMachine (machineId a) (Schema.locationId a) AWAITING_DROPOFF
            (Some (Model.jobId request))
    ∧ row (machineId u) (rows (world s')) = Some u
    ∧ (∀ i, i ≠ machineId u → row i (rows (world s')) = row i (rows (world s)))
    ∧ map machineId (rows (world s')) = map machineId (rows (world s))
    ∧ entries (world s') = <[machineId u := u]> (entries (world s)).
Proof.
  intros Hkey. expose. unfold tableCall. simpl.
  repeat branch; intros Hrun; simplify_eq; simpl.
  match goal with
  | H : find _ (atLocation _ _) = Some ?a |- _ =>
      apply find_some in H as [Hlisted Ha];
      apply bool_decide_eq_true in Ha;
      pose proof (location_of_listed _ _ _ Hlisted) as Hloc;
      assert (In a (rows (world s))) as Hin
        by (unfold atLocation in Hlisted; by apply filter_In in Hlisted as [? _]);
      pose proof (row_of_member _ _ Hkey Hin) as Hrow
  end.
  match goal with
  | H : row _ (alterRow _ _ (alterRow _ _ _)) = Some _ |- _ =>
      pose proof H as Hafter;
      rewrite row_withJobId, row_withStatus, Hrow in H; simpl in H;
      injection H as <-
  end.
  simpl in *. eexists. split; [exact Hrow|]. split; [exact Ha|].
  split; [exact Hloc|]. split; [reflexivity|]. split; [exact Hafter|].
  split; [|split; [|reflexivity]].
  - intros i Hi. by rewrite !row_elsewhere.
  - by rewrite !ids_alterRow.
Qed.

(** X15.  Whatever the outages: when RequestMachine answers OK, the
    machine returned was AVAILABLE in the table and stands at the location
    of the request; the record returned is that row with the status
    AWAITING_DROPOFF and the job of the request; it is now the row of the
    table and the entry of the cache, no other row and no other entry has
    changed, and no row was added or removed.  So a machine that is not
    AVAILABLE is never handed out. *)
Theorem requestMachine_ok_means_reserved
    (request : RequestMachineRequestModel) w u s' :
  keyed (rows w) →
  handleRequestMachine apiHandler request (fresh w)
    = Returned {| statusCode := OK; machine := Some u |} s' →
  ∃ a,
    row (machineId u) (rows w) = Some a
    ∧ status a = AVAILABLE
    ∧ Schema.locationId a = Model.locationId request
    ∧ u = mkMachine (machineId a) (Schema.locationId a) AWAITING_DROPOFF
            (Some (Model.jobId request))
    ∧ row (machineId u) (rows (world s')) = Some u
    ∧ (∀ i, i ≠ machineId u → row i (rows (world s')) = row i (rows w))
    ∧ map machineId (rows (world s')) = map machineId (rows w)
    ∧ entries (world s') = <[machineId u := u]> (entries w).
Proof. apply (request_ok_row request (fresh w)). Qed.

Lemma start_ok_row (request : StartMachineRequestModel) w u s' :
  handleStartMachine apiHandler request (fresh w)
    = Returned {| statusCode := OK; machine := Some u |} s' →
  ∃ m,
    row (Model.machineId request) (rows w) = Some m
    ∧ status m = AWAITING_DROPOFF
    ∧ deviceTurn w = Starts
    ∧ u = mkMachine (machineId m) (Schema.locationId m) RUNNING (jobId m)
    ∧ row (Model.machineId request) (rows (world s')) = Some u
    ∧ (∀ i, i ≠ Model.machineId request → row i (rows (world s')) = row i (rows w))
    ∧ entries (world s') = <[Model.machineId request := u]> (entries w).
Proof.
  expose. unfold tableCall. simpl.
  repeat branch; intros Hrun; simplify_eq; simpl; props.
  match goal with
  | H : row _ (alterRow _ _ _) = Some _ |- _ =>
      pose proof H as Hafter; rewrite row_withStatus in H
  end.
  match goal with H : row _ (rows w) = Some _ |- _ => rewrite H in * end.
  simplify_eq/=. eexists. repeat (split; [done|]). split; [|reflexivity].
  intros i Hi. by rewrite row_elsewhere.
Qed.

(** X16.  Whatever the outages and the device: when StartMachine answers
    OK, the machine was in AWAITING_DROPOFF in the table and the device has
    started the cycle; the record returned is that row with the status
    RUNNING; it is now the row of the table and the entry of the cache, and
    no other row and no other entry has changed. *)
Theorem startMachine_ok_means_running (request : StartMachineRequestModel) w u s' :
  handleStartMachine apiHandler request (fresh w)
    = Returned {| statusCode := OK; machine := Some u |} s' →
  ∃ m,
    row (Model.machineId request) (rows w) = Some m
    ∧ status m = AWAITING_DROPOFF
    ∧ deviceTurn w = Starts
    ∧ u = mkMachine (machineId m) (Schema.locationId m) RUNNING (jobId m)
    ∧ row (Model.machineId request) (rows (world s')) = Some u
    ∧ (∀ i, i ≠ Model.machineId request → row i (rows (world s')) = row i (rows w))
    ∧ entries (world s') = <[Model.machineId request := u]> (entries w).
Proof.
  expose. unfold tableCall. simpl.
  repeat branch; intros Hrun; simplify_eq; simpl; props.
  match goal with
  | H : row _ (alterRow _ _ _) = Some _ |- _ =>
      pose proof H as Hafter; rewrite row_withStatus in H
  end.
  match goal with H : row _ (rows w) = Some _ |- _ => rewrite H in * end.
  simplify_eq/=. eexists. repeat (split; [done|]). split; [|reflexivity].
  intros i Hi. by rewrite row_elsewhere.
Qed.

(** X17.  Whatever the outages and the device: StartMachine answers
    HARDWARE_ERROR only for a machine that is in ERROR in the table when it
    returns, either because it was already (and the first read raised), or
    because it was in AWAITING_DROPOFF and the device broke down at the
    start command.  The record returned is the row of the table and the
    entry of the cache. *)
Theorem startMachine_hardware_error_means_error
    (request : StartMachineRequestModel) w u s' :
  handleStartMachine apiHandler request (fresh w)
    = Returned {| statusCode := HARDWARE_ERROR; machine := Some u |} s' →
  status u = ERROR
  ∧ row (Model.machineId request) (rows (world s')) = Some u
  ∧ entries (world s') = <[Model.machineId request := u]> (entries w)
  ∧ ((row (Model.machineId request) (rows w) = Some u ∧ outageDue w = true)
     ∨ (∃ m, row (Model.machineId request) (rows w) = Some m
             ∧ status m = AWAITING_DROPOFF
             ∧ deviceTurn w = BreaksDown
             ∧ u = mkMachine (machineId m) (Schema.locationId m) ERROR (jobId m))).
Proof.
  expose. unfold tableCall. simpl.
  repeat branch; intros Hrun; simplify_eq; simpl; props.
  all: unfold deviceTurn in *; simpl in *.
  all: repeat match goal with
       | H : row ?i (alterRow ?i (withStatus _) _) = Some _ |- _ =>
           rewrite row_withStatus in H
       end.
  all: repeat match goal with
       | H : row ?i ?t = Some _, H' : context [row ?i ?t] |- _ =>
           rewrite H in H'; simpl in H'
       end.
  all: simplify_eq/=.
  all: try (exfalso; congruence).
  - idle_writes. repeat (split; [done|]). by left.
  - rewrite !row_withStatus.
    match goal with H : row _ (rows w) = Some _ |- _ => rewrite H end.
    simpl. repeat (split; [done|]). right. eexists. by repeat split.
Qed.

(** X18.  GetMachine never replaces an entry of the cache, and once it has
    answered OK with a record it keeps answering that record from the cache
    alone: whatever the table has become since, with or without outages, as
    long as the entry has not been replaced by another operation. *)
Theorem getMachine_answers_from_the_cache (request : GetMachineRequestModel) w :
  ∃ response s1,
    handleGetMachine apiHandler request (fresh w) = Returned response s1
    ∧ (∀ i c, entries w !! i = Some c → entries (world s1) !! i = Some c)
    ∧ (∀ m, response = {| statusCode := OK; machine := Some m |} →
       ∀ s2 : Session World,
         entries (world s2) !! Model.machineId request
           = entries (world s1) !! Model.machineId request →
         handleGetMachine apiHandler request s2
         = Returned {| statusCode := OK; machine := Some m |}
             (mkSession (world s2)
                (trace s2 ++ [(CacheGet (Model.machineId request), Found (Some m))]))).
Proof.
  apply returns_exists. expose. unfold tableCall. simpl.
  repeat branch.
  all: split;
    [intros i c Hc; simpl;
     first [exact Hc
           |destruct (decide (Model.machineId request = i)) as [<-|Hne];
            [congruence|by rewrite lookup_insert_ne]]
    |intros ? [= <-] s2 Hs2; simpl in Hs2;
     rewrite ?lookup_insert_eq in Hs2;
     try match goal with
         | H : entries ?x !! ?i = Some _, H2 : _ = entries ?x !! ?i |- _ =>
             rewrite H in H2
         end;
     by rewrite Hs2].
Qed.

(** X19.  A transient failure of the device leaves everything as it was:
    when the machine is in AWAITING_DROPOFF, its read is served and the
    device refuses the start command, StartMachine answers
    INTERNAL_SERVER_ERROR and neither the table nor the cache has changed,
    whether the re-read of the catch block is served or not.  The start can
    be tried again. *)
Theorem refused_start_changes_nothing (request : StartMachineRequestModel) w m :
  row (Model.machineId request) (rows w) = Some m →
  status m = AWAITING_DROPOFF →
  outageDue w = false →
  deviceTurn w = Refuses →
  ∃ s',
    handleStartMachine apiHandler request (fresh w)
      = Returned {| statusCode := INTERNAL_SERVER_ERROR; machine := None |} s'
    ∧ rows (world s') = rows w
    ∧ entries (world s') = entries w.
Proof.
  intros Hrow Hm Hup Hdev. expose. unfold tableCall. simpl.
  rewrite Hup. simpl. rewrite Hrow. simpl.
  rewrite (bool_decide_eq_true_2 _ Hm). simpl.
  assert (deviceTurn (served id w) = Refuses) as -> by exact Hdev. simpl.
  branch; [by eexists|].
  rewrite Hrow. simpl. rewrite Hm. simpl. by eexists.
Qed.

(** X20.  StartMachine cannot be repeated: after it has answered OK, a
    second StartMachine for the same machine whose read is served answers
    BAD_REQUEST with the record in RUNNING, sends no start command and
    changes neither the table nor the cache. *)
Theorem second_start_is_refused (request : StartMachineRequestModel) w u s1 :
  handleStartMachine apiHandler request (fresh w)
    = Returned {| statusCode := OK; machine := Some u |} s1 →
  outageDue (world s1) = false →
  ∃ s2,
    handleStartMachine apiHandler request s1
      = Returned {| statusCode := BAD_REQUEST; machine := Some u |} s2
    ∧ status u = RUNNING
    ∧ since s1 s2 = [(GetMachine (Model.machineId request), Found (Some u))]
    ∧ rows (world s2) = rows (world s1)
    ∧ entries (world s2) = entries (world s1).
Proof.
  intros Hfirst Hup.
  destruct (start_ok_row _ _ _ _ Hfirst) as (m & _ & _ & _ & -> & Hrow & _ & _).
  expose. unfold tableCall. simpl. rewrite Hup. simpl. rewrite Hrow. simpl.
  eexists. split; [reflexivity|]. split; [reflexivity|]. simpl.
  unfold since. simpl. rewrite drop_app_length. done.
Qed.

(** X21.  A reservation that fails half-way is not undone: when the
    listing and the update of the status are served and the update of the
    job id raises, RequestMachine answers INTERNAL_SERVER_ERROR, the machine
    taken is left in AWAITING_DROPOFF with the job id it had, and the cache
    is not touched.  The machine is no longer AVAILABLE although no job
    holds it. *)
Theorem half_reservation_is_kept (request : RequestMachineRequestModel) w a later :
  keyed (rows w) →
  find (λ m, bool_decide (status m = AVAILABLE))
    (atLocation (Model.locationId request) (rows w)) = Some a →
  outages w = false :: false :: true :: later →
  ∃ s',
    handleRequestMachine apiHandler request (fresh w)
      = Returned {| statusCode := INTERNAL_SERVER_ERROR; machine := None |} s'
    ∧ row (machineId a) (rows (world s'))
      = Some (mkMachine (machineId a) (Schema.locationId a) AWAITING_DROPOFF (jobId a))
    ∧ (∀ i, i ≠ machineId a → row i (rows (world s')) = row i (rows w))
    ∧ entries (world s') = entries w.
Proof.
  intros Hkey Hfind Hout. destruct w as [t cached known out turns].
  simpl in *. subst out.
  destruct (first_of_listing _ _ _ _ Hfind) as [Hin _].
  pose proof (row_of_member _ _ Hkey Hin) as Hrow.
  expose. unfold tableCall, outageDue. simpl. rewrite Hfind. simpl.
  eexists. split; [reflexivity|]. simpl. split; [|split; [|reflexivity]].
  - by rewrite row_withStatus, Hrow.
  - intros i Hi. by rewrite row_elsewhere.
Qed.

Lemma tableUp_now w : tableUp w → outageDue w = false.
Proof.
  unfold tableUp, outageDue. destruct (outages w) as [|[|] ?]; [done| |done].
  intros H. by apply Forall_cons in H as [? _].
Qed.

Lemma Forall_of_tail {A} (P : A → Prop) (l : list A) : Forall P l → Forall P (tail l).
Proof. destruct 1; [constructor|done]. Qed.

Lemma row_of_listed t a : In a t → is_Some (row (machineId a) t).
Proof.
  unfold row. induction t as [|m t IH]; simpl; [done|].
  destruct (String.eqb (machineId m) (machineId a)) eqn:E; [by eexists|].
  intros [->|Hin]; [by rewrite String.eqb_refl in E|by apply IH].
Qed.

(** X22.  Without outages of the table the cache never goes stale: if every
    entry of the cache is the row of its machine and no outage is due, the
    same holds after any operation, whatever the device does. *)
Theorem cache_stays_coherent (op : Operation.t) w :
  tableUp w → coherent w →
  ∃ response s',
    perform apiHandler op (fresh w) = Returned response s'
    ∧ coherent (world s') ∧ tableUp (world s').
Proof.
  intros Hup Hcoh. apply returns_exists.
  destruct op as [request|request|request]; simpl; expose; unfold tableCall; simpl.
  all: repeat branch.
  all: try match goal with
       | H : outageDue ?X = true |- _ =>
           exfalso;
           assert (tableUp X) as Hx
             by (unfold tableUp in *; simpl; repeat apply Forall_of_tail; exact Hup);
           apply tableUp_now in Hx; congruence
       end.
  all: (split; [|unfold tableUp in *; simpl; repeat apply Forall_of_tail; exact Hup]).
  all: props.
  all: try match goal with
       | H : find _ (atLocation _ _) = Some ?a |- _ =>
           apply first_of_listing in H as [Hin _];
           destruct (row_of_listed _ _ Hin) as [a' Ha']
       end.
  all: repeat match goal with
       | H : context [row ?i (alterRow ?i (withStatus _) _)] |- _ =>
           rewrite row_withStatus in H
       | H : context [row ?i (alterRow ?i (withJobId _) _)] |- _ =>
           rewrite row_withJobId in H
       end.
  all: repeat match goal with
       | H : row ?i ?t = Some _, H' : context [row ?i ?t] |- _ =>
           rewrite H in H'; simpl in H'
       end.
  all: simplify_eq/=.
  all: try (exfalso; congruence).
  all: unfold coherent in *; simpl; try exact Hcoh.
  all: intros i c Hc;
    match type of Hc with
    | <[?k := _]> _ !! _ = _ =>
        destruct (decide (k = i)) as [<-|Hne];
        [rewrite lookup_insert_eq in Hc; injection Hc as <-;
         rewrite ?row_withJobId, ?row_withStatus
        |rewrite lookup_insert_ne in Hc by done;
         rewrite ?row_elsewhere by done; by apply Hcoh]
    | _ => idtac
    end.
  all: repeat match goal with
       | H : row ?i ?t = Some _ |- context [row ?i ?t] => rewrite H
       end; done.
Qed.

(** X23.  One request after the other, no machine is handed out twice:
    when a RequestMachine has answered OK with a machine, a later
    RequestMachine that answers OK, for whatever location and job, returns
    another machine, as long as no other operation has run in between. *)
Theorem no_machine_is_reserved_twice
    (first second : RequestMachineRequestModel) w u1 s1 u2 s2 :
  keyed (rows w) →
  handleRequestMachine apiHandler first (fresh w)
    = Returned {| statusCode := OK; machine := Some u1 |} s1 →
  handleRequestMachine apiHandler second s1
    = Returned {| statusCode := OK; machine := Some u2 |} s2 →
  machineId u2 ≠ machineId u1.
Proof.
  intros Hkey H1 H2.
  destruct (request_ok_row first (fresh w) u1 s1 Hkey H1)
    as (a1 & _ & _ & _ & Hu1 & Hafter1 & _ & Hids & _).
  assert (keyed (rows (world s1))) as Hkey1
    by (unfold keyed; by rewrite Hids).
  destruct (request_ok_row second s1 u2 s2 Hkey1 H2)
    as (a2 & Hbefore2 & Ha2 & _).
  intros Heq. rewrite Heq, Hafter1 in Hbefore2. injection Hbefore2 as <-.
  by rewrite Hu1 in Ha2.
Qed.

End Frames.

(** ** The further properties, on the laundromat *)

Ltac ran := unfold runs; vm_compute; reflexivity.

(** X2 for the start of the press that breaks down. *)
Lemma responses_are_well_formed_witness :
  (is_Some (Some Laundromat.brokenDown) ↔ carriesRecord HARDWARE_ERROR = true)
  ∧ HARDWARE_ERROR ∈ codesOf Scenes.startPress.
Proof.
  apply (responses_are_well_formed Memory.apiHandler Scenes.startPress
           (Memory.fresh Laundromat.brokenPress)
           {| statusCode := HARDWARE_ERROR; machine := Some Laundromat.brokenDown |}
           (trace Scenes.afterBreakdown) (world Scenes.afterBreakdown)).
  ran.
Defined.

(** X3 for the start of the press that breaks down: the start command
    raised. *)
Lemma raised_calls_and_codes_witness :
  (existsb raised (trace Scenes.afterBreakdown) = true →
   HARDWARE_ERROR = INTERNAL_SERVER_ERROR
   ∨ (HARDWARE_ERROR = HARDWARE_ERROR
      ∧ ∃ request, Scenes.startPress = Operation.StartMachine request))
  ∧ (HARDWARE_ERROR = HARDWARE_ERROR →
     existsb raised (trace Scenes.afterBreakdown) = true).
Proof.
  apply (raised_calls_and_codes Memory.apiHandler Scenes.startPress
           (Memory.fresh Laundromat.brokenPress)
           {| statusCode := HARDWARE_ERROR; machine := Some Laundromat.brokenDown |}
           (trace Scenes.afterBreakdown) (world Scenes.afterBreakdown)).
  ran.
Defined.

(** X4 for the start of the press. *)
Lemma start_command_discipline_witness :
  ∃ request m r rest,
    Scenes.startPress = Operation.StartMachine request
    ∧ trace Scenes.afterStart
      = (GetMachine (Model.machineId request), Found (Some m))
        :: (StartCycle (Model.machineId request), r) :: rest
    ∧ status m = AWAITING_DROPOFF
    ∧ existsb isStartCycle rest = false.
Proof.
  apply (start_command_discipline Memory.apiHandler Scenes.startPress
           (Memory.fresh Laundromat.quiet)
           {| statusCode := OK; machine := Some Scenes.pressing |}
           (trace Scenes.afterStart) (world Scenes.afterStart)).
  - ran.
  - reflexivity.
Defined.

(** X5 for the start of the press. *)
Lemma running_is_written_after_the_start_witness :
  ∃ request m r rest,
    Scenes.startPress = Operation.StartMachine request
    ∧ trace Scenes.afterStart
      = (GetMachine (Model.machineId request), Found (Some m))
        :: (StartCycle (Model.machineId request), Void)
        :: (UpdateMachineStatus (Model.machineId request) RUNNING, r) :: rest
    ∧ existsb (writesStatus RUNNING) rest = false.
Proof.
  apply (running_is_written_after_the_start Memory.apiHandler Scenes.startPress
           (Memory.fresh Laundromat.quiet)
           {| statusCode := OK; machine := Some Scenes.pressing |}
           (trace Scenes.afterStart) (world Scenes.afterStart)).
  - ran.
  - reflexivity.
Defined.

(** X6 for the start of the press that breaks down. *)
Lemma calls_concern_one_machine_witness :
  ∃ i,
    Forall (λ ev, mayCall Scenes.startPress ev.1 = true
                  ∧ (machineOf ev.1 = None ∨ machineOf ev.1 = Some i))
      (trace Scenes.afterBreakdown)
    ∧ i = "m3".
Proof.
  apply (calls_concern_one_machine Memory.apiHandler Scenes.startPress
           (Memory.fresh Laundromat.brokenPress)
           {| statusCode := HARDWARE_ERROR; machine := Some Laundromat.brokenDown |}
           (trace Scenes.afterBreakdown) (world Scenes.afterBreakdown)).
  ran.
Defined.

(** X7 for the start of the press. *)
Lemma served_put_is_last_witness :
  ∃ i doc,
    last (trace Scenes.afterStart) = Some (CachePut i doc, Void)
    ∧ existsb isServedPut (removelast (trace Scenes.afterStart)) = false
    ∧ Some Scenes.pressing = Some doc
    ∧ (OK = OK ∨ OK = HARDWARE_ERROR).
Proof.
  apply (served_put_is_last Memory.apiHandler Scenes.startPress
           (Memory.fresh Laundromat.quiet)
           {| statusCode := OK; machine := Some Scenes.pressing |}
           (trace Scenes.afterStart) (world Scenes.afterStart)).
  - ran.
  - reflexivity.
Defined.

(** X8 for the start of the dryer, which is running. *)
Lemma refusals_change_nothing_witness :
  existsb raised (trace Scenes.afterRefusal) = false
  ∧ existsb changes (trace Scenes.afterRefusal) = false.
Proof.
  apply (refusals_change_nothing Memory.apiHandler Scenes.startDryer
           (Memory.fresh Laundromat.quiet)
           {| statusCode := BAD_REQUEST; machine := Some Laundromat.dryer |}
           (trace Scenes.afterRefusal) (world Scenes.afterRefusal)).
  - ran.
  - by right.
Defined.

(** X9 for the start of the press that breaks down. *)
Lemma records_of_error_responses_witness :
  (HARDWARE_ERROR = HARDWARE_ERROR →
   ∃ request m,
     Scenes.startPress = Operation.StartMachine request
     ∧ Some Laundromat.brokenDown = Some m ∧ status m = ERROR
     ∧ drop (length (trace Scenes.afterBreakdown) - 3) (trace Scenes.afterBreakdown)
       = [(GetMachine (Model.machineId request), Found (Some m));
          (UpdateMachineStatus (Model.machineId request) ERROR, Void);
          (CachePut (Model.machineId request) m, Void)])
  ∧ (HARDWARE_ERROR = BAD_REQUEST →
     ∃ m, Some Laundromat.brokenDown = Some m ∧ status m ≠ AWAITING_DROPOFF).
Proof.
  apply (records_of_error_responses Memory.apiHandler Scenes.startPress
           (Memory.fresh Laundromat.brokenPress)
           {| statusCode := HARDWARE_ERROR; machine := Some Laundromat.brokenDown |}
           (trace Scenes.afterBreakdown) (world Scenes.afterBreakdown)).
  ran.
Defined.

(** X10 for the start of the press that breaks down: five calls. *)
Lemma calls_are_bounded_witness :
  (1 ≤ length (trace Scenes.afterBreakdown) ≤ 8)%nat.
Proof.
  apply (calls_are_bounded Memory.apiHandler Scenes.startPress
           (Memory.fresh Laundromat.brokenPress)
           {| statusCode := HARDWARE_ERROR; machine := Some Laundromat.brokenDown |}
           (trace Scenes.afterBreakdown) (world Scenes.afterBreakdown)).
  ran.
Defined.

(** X12 for a GET on the path of the dryer, on the laundromat. *)
Lemma handle_routes_witness :
  handle Memory.apiHandler (Laundromat.fetch "/machine/m2")
    (Memory.fresh Laundromat.quiet)
  = handleGetMachine Memory.apiHandler
      (Model.mkWithMachineId (Laundromat.fetch "/machine/m2") "m2")
      (admitted (Memory.fresh Laundromat.quiet) "secret" Laundromat.quiet).
Proof.
  apply (proj1 (proj2 (handle_routes Memory.apiHandler
                         (Laundromat.fetch "/machine/m2")
                         (Memory.fresh Laundromat.quiet) Laundromat.quiet
                         eq_refl)) "m2").
  - reflexivity.
  - repeat split. discriminate.
Defined.

(** X15 for the reservation of the washer. *)
Lemma requestMachine_ok_means_reserved_witness :
  ∃ a,
    Memory.row "m1" (Memory.rows Laundromat.quiet) = Some a
    ∧ status a = AVAILABLE
    ∧ Schema.locationId a = "L1"
    ∧ Laundromat.reserved
      = mkMachine (machineId a) (Schema.locationId a) AWAITING_DROPOFF (Some "J1")
    ∧ Memory.row "m1" (Memory.rows (world Scenes.afterReservation))
      = Some Laundromat.reserved
    ∧ (∀ i, i ≠ "m1" →
         Memory.row i (Memory.rows (world Scenes.afterReservation))
         = Memory.row i (Memory.rows Laundromat.quiet))
    ∧ map machineId (Memory.rows (world Scenes.afterReservation))
      = map machineId (Memory.rows Laundromat.quiet)
    ∧ Memory.entries (world Scenes.afterReservation)
      = <["m1" := Laundromat.reserved]> (Memory.entries Laundromat.quiet).
Proof.
  apply (requestMachine_ok_means_reserved (Laundromat.post "/machine/request")
           Laundromat.quiet Laundromat.reserved Scenes.afterReservation).
  - by compute_done.
  - vm_compute. reflexivity.
Defined.

(** X16 for the start of the press. *)
Lemma startMachine_ok_means_running_witness :
  ∃ m,
    Memory.row "m3" (Memory.rows Laundromat.quiet) = Some m
    ∧ status m = AWAITING_DROPOFF
    ∧ Memory.deviceTurn Laundromat.quiet = Memory.Starts
    ∧ Scenes.pressing = mkMachine (machineId m) (Schema.locationId m) RUNNING (jobId m)
    ∧ Memory.row "m3" (Memory.rows (world Scenes.afterStart)) = Some Scenes.pressing
    ∧ (∀ i, i ≠ "m3" →
         Memory.row i (Memory.rows (world Scenes.afterStart))
         = Memory.row i (Memory.rows Laundromat.quiet))
    ∧ Memory.entries (world Scenes.afterStart)
      = <["m3" := Scenes.pressing]> (Memory.entries Laundromat.quiet).
Proof.
  apply (startMachine_ok_means_running
           (Model.mkWithMachineId (Laundromat.post "/machine/m3/start") "m3")
           Laundromat.quiet Scenes.pressing Scenes.afterStart).
  vm_compute. reflexivity.
Defined.

(** X17 for the start of the press that breaks down. *)
Lemma startMachine_hardware_error_means_error_witness :
  status Laundromat.brokenDown = ERROR
  ∧ Memory.row "m3" (Memory.rows (world Scenes.afterBreakdown))
    = Some Laundromat.brokenDown
  ∧ Memory.entries (world Scenes.afterBreakdown)
    = <["m3" := Laundromat.brokenDown]> (Memory.entries Laundromat.brokenPress)
  ∧ ((Memory.row "m3" (Memory.rows Laundromat.brokenPress) = Some Laundromat.brokenDown
      ∧ Memory.outageDue Laundromat.brokenPress = true)
     ∨ (∃ m, Memory.row "m3" (Memory.rows Laundromat.brokenPress) = Some m
             ∧ status m = AWAITING_DROPOFF
             ∧ Memory.deviceTurn Laundromat.brokenPress = Memory.BreaksDown
             ∧ Laundromat.brokenDown
               = mkMachine (machineId m) (Schema.locationId m) ERROR (jobId m))).
Proof.
  apply (startMachine_hardware_error_means_error
           (Model.mkWithMachineId (Laundromat.post "/machine/m3/start") "m3")
           Laundromat.brokenPress Laundromat.brokenDown Scenes.afterBreakdown).
  vm_compute. reflexivity.
Defined.

(** X19 for the press and a device that refuses. *)
Lemma refused_start_changes_nothing_witness :
  ∃ s',
    handleStartMachine Memory.apiHandler
      (Model.mkWithMachineId (Laundromat.post "/machine/m3/start") "m3")
      (Memory.fresh Scenes.stubborn)
    = Returned {| statusCode := INTERNAL_SERVER_ERROR; machine := None |} s'
    ∧ Memory.rows (world s') = Memory.rows Scenes.stubborn
    ∧ Memory.entries (world s') = Memory.entries Scenes.stubborn.
Proof.
  apply (refused_start_changes_nothing
           (Model.mkWithMachineId (Laundromat.post "/machine/m3/start") "m3")
           Scenes.stubborn Laundromat.press); reflexivity.
Defined.

(** X20 for the press, started twice. *)
Lemma second_start_is_refused_witness :
  ∃ s2,
    handleStartMachine Memory.apiHandler
      (Model.mkWithMachineId (Laundromat.post "/machine/m3/start") "m3")
      Scenes.afterStart
    = Returned {| statusCode := BAD_REQUEST; machine := Some Scenes.pressing |} s2
    ∧ status Scenes.pressing = RUNNING
    ∧ since Scenes.afterStart s2 = [(GetMachine "m3", Found (Some Scenes.pressing))]
    ∧ Memory.rows (world s2) = Memory.rows (world Scenes.afterStart)
    ∧ Memory.entries (world s2) = Memory.entries (world Scenes.afterStart).
Proof.
  apply (second_start_is_refused
           (Model.mkWithMachineId (Laundromat.post "/machine/m3/start") "m3")
           Laundromat.quiet Scenes.pressing Scenes.afterStart).
  - vm_compute. reflexivity.
  - reflexivity.
Defined.

(** X21 for the washer, when the table is out at its third call. *)
Lemma half_reservation_is_kept_witness :
  ∃ s',
    handleRequestMachine Memory.apiHandler (Laundromat.post "/machine/request")
      (Memory.fresh Scenes.halfway)
    = Returned {| statusCode := INTERNAL_SERVER_ERROR; machine := None |} s'
    ∧ Memory.row "m1" (Memory.rows (world s'))
      = Some (mkMachine "m1" "L1" AWAITING_DROPOFF None)
    ∧ (∀ i, i ≠ "m1" →
         Memory.row i (Memory.rows (world s')) = Memory.row i (Memory.rows Scenes.halfway))
    ∧ Memory.entries (world s') = Memory.entries Scenes.halfway.
Proof.
  apply (half_reservation_is_kept (Laundromat.post "/machine/request")
           Scenes.halfway Laundromat.washer []).
  - by compute_done.
  - reflexivity.
  - reflexivity.
Defined.

(** X22 for the start of the press, with the dryer in the cache. *)
Lemma cache_stays_coherent_witness :
  ∃ response s',
    perform Memory.apiHandler Scenes.startPress (Memory.fresh Scenes.cached)
      = Returned response s'
    ∧ coherent (world s') ∧ Memory.tableUp (world s').
Proof.
  apply (cache_stays_coherent Scenes.startPress Scenes.cached).
  - apply Forall_nil_2.
  - intros id c Hc. simpl in Hc.
    apply lookup_singleton_Some in Hc as [<- <-]. reflexivity.
Defined.

(** X23 for two washers at L1, reserved one after the other. *)
Lemma no_machine_is_reserved_twice_witness :
  machineId Scenes.reserved2 ≠ machineId Laundromat.reserved.
Proof.
  apply (no_machine_is_reserved_twice
           (Laundromat.post "/machine/request") (Laundromat.post "/machine/request")
           Scenes.twoWashers Laundromat.reserved Scenes.afterFirst
           Scenes.reserved2 Scenes.afterSecond).
  - by compute_done.
  - vm_compute. reflexivity.
  - vm_compute. reflexivity.
Defined.
